(** * Modifier List add-on: visibility resolver and list-reorder controller

    A shallow embedding of
      - [modules/ui/modifiers_ui.py]
      - [modules/operators/modifier_move_up.py]
      - [modules/operators/object_remove_all_modifiers.py]
    The host application owns the scene data; this file models the part of
    it that the add-on reads and writes (an object's ordered modifier
    sequence, its active index, the UI layout a draw function fills). *)

From Stdlib Require Import ZArith QArith.
From stdpp Require Import base decidable option list strings pretty gmap.

Local Open Scope string_scope.
Local Open Scope Z_scope.
Local Open Scope list_scope.

(** ** Python and numpy helpers *)

Module Py.

(** Result of a computation that may raise. *)
Inductive exn := IndexError.

Inductive result (A : Type) :=
| Ok (a : A)
| Raise (e : exn).
Arguments Ok {A} a.
Arguments Raise {A} e.

Definition bind {A B} (r : result A) (k : A -> result B) : result B :=
  match r with
  | Ok a => k a
  | Raise e => Raise e
  end.

(** [np.clip(x, lo, hi)] is [minimum(maximum(x, lo), hi)]. *)
Definition np_clip (x lo hi : Z) : Z := Z.min (Z.max x lo) hi.

(** A slice bound as Python normalises it against the length. *)
Definition slice_bound (len i : Z) : nat :=
  Z.to_nat (if i <? 0 then Z.max (i + len) 0 else Z.min i len).

(** [l[lo:hi]] *)
Definition slice {A} (l : list A) (lo hi : Z) : list A :=
  let len := Z.of_nat (length l) in
  let lo' := slice_bound len lo in
  let hi' := slice_bound len hi in
  take (hi' - lo')%nat (drop lo' l).

(** [l[i]]: a negative index counts from the end, anything outside
    [-len, len) raises IndexError. *)
Definition index {A} (l : list A) (i : Z) : result A :=
  let len := Z.of_nat (length l) in
  let j := if i <? 0 then i + len else i in
  if (0 <=? j) && (j <? len) then
    match l !! Z.to_nat j with
    | Some a => Ok a
    | None => Raise IndexError
    end
  else Raise IndexError.

(** [for x in l: if p(x): flag = True; break], with [flag] False before. *)
Fixpoint for_break {A} (p : A -> bool) (l : list A) : bool :=
  match l with
  | [] => false
  | x :: l' => if p x then true else for_break p l'
  end.

End Py.

Notation "x <- r ;; k" := (Py.bind r (fun x => k))
  (at level 100, r at next level, right associativity).

(** ** Data model *)

Record modifier := Modifier {
  name : string;
  type : string;
  show_viewport : bool;
  show_render : bool;
  show_in_editmode : bool;
  show_on_cage : bool;
  use_apply_on_spline : bool;
}.

#[global] Instance modifier_eq_dec : EqDecision modifier.
Proof. solve_decision. Defined.

(** [mods.find(name)]: the position of the entry called [n], or -1. *)
Fixpoint find (n : string) (mods : list modifier) : Z :=
  match mods with
  | [] => -1
  | m :: mods' =>
      if decide (name m = n) then 0
      else let r := find n mods' in if r <? 0 then -1 else r + 1
  end.

(** An object owns its modifier sequence and the add-on's active index. *)
Record object := Object {
  ob_name : string;
  ob_type : string;
  modifiers : list modifier;
  ml_modifier_active_index : Z;
  parent : option string;
}.

Definition set_modifiers (mods : list modifier) (ob : object) : object :=
  {| ob_name := ob_name ob; ob_type := ob_type ob; modifiers := mods;
     ml_modifier_active_index := ml_modifier_active_index ob;
     parent := parent ob |}.

Definition set_ml_modifier_active_index (i : Z) (ob : object) : object :=
  {| ob_name := ob_name ob; ob_type := ob_type ob; modifiers := modifiers ob;
     ml_modifier_active_index := i; parent := parent ob |}.

(** What the add-on's code can see besides its arguments. An object can
    be pinned in the add-on, which is why [execute] passes an override to
    the host's operators; [pinned_object] is [Some] only for an object
    other than [context.object]. The version is kept twice, as the host
    does: [bpy.app.version] as a tuple, and the number read off the first
    four characters of [bpy.app.version_string]. *)
Record context := Context {
  context_object : object;          (* bpy.context.object *)
  pinned_object : option object;
  area_type : string;               (* bpy.context.area.type *)
  app_version : Z * Z;              (* bpy.app.version[0], [1] *)
  version_major_point_minor : Q;    (* float(version_string[0:4].strip(".")) *)
}.

(** [get_ml_active_object()] of [utils], a module outside the files
    modelled here: the object whose modifiers the add-on shows, which is
    the pinned object when one is pinned and [context.object] otherwise. *)
Definition get_ml_active_object (c : context) : object :=
  match pinned_object c with
  | Some ob => ob
  | None => context_object c
  end.

(** A write through the reference [bpy.context.object]. *)
Definition on_context_object (f : object -> object) (c : context) : context :=
  {| context_object := f (context_object c); pinned_object := pinned_object c;
     area_type := area_type c; app_version := app_version c;
     version_major_point_minor := version_major_point_minor c |}.

(** A write through the reference [get_ml_active_object()] returned. *)
Definition on_ml_active_object (f : object -> object) (c : context) : context :=
  match pinned_object c with
  | Some ob =>
      {| context_object := context_object c; pinned_object := Some (f ob);
         area_type := area_type c; app_version := app_version c;
         version_major_point_minor := version_major_point_minor c |}
  | None => on_context_object f c
  end.

(** ** UI layout

    A layout is the list of widgets added to it, in order. A container
    ([layout.row()], [layout.column()]) carries the attributes the code
    sets on it and its own children. *)

Inductive container_kind := Row | Column.

Record attrs := Attrs {
  align : bool;
  active : bool;
  enabled : bool;
  scale_x : option Q;
}.

(** [layout.row(align=a)] before any attribute is assigned. *)
Definition fresh (a : bool) : attrs :=
  {| align := a; active := true; enabled := true; scale_x := None |}.

Definition set_active (b : bool) (r : attrs) : attrs :=
  {| align := align r; active := b; enabled := enabled r; scale_x := scale_x r |}.

Definition set_enabled (b : bool) (r : attrs) : attrs :=
  {| align := align r; active := active r; enabled := b; scale_x := scale_x r |}.

Definition set_scale_x (q : Q) (r : attrs) : attrs :=
  {| align := align r; active := active r; enabled := enabled r; scale_x := Some q |}.

#[warnings="-register-all"]
Inductive widget :=
| label (text : string) (icon_value : option Z)
| prop (owner : string) (property : string) (text : string)
    (icon_value : option Z) (emboss : bool)
| operator (idname : string) (text : option string) (icon : option string)
    (emboss : bool) (depress : bool) (args : list (string * string))
| separator
| context_pointer_set (key : string) (owner : string)
| container (k : container_kind) (a : attrs) (children : list widget).

Definition layout := list widget.

(** ** Visibility-state resolver ([modules/ui/modifiers_ui.py]) *)

Section Resolver.

(** The category tables of [modifier_categories] and the icon ids of
    [icons.preview_collections["main"]] come from modules outside the
    files modelled here. They are fixed when the add-on is registered and
    the resolver only reads them. *)
Variable DONT_SUPPORT_SHOW_IN_EDITMODE : gset string.
Variable SUPPORT_USE_APPLY_ON_SPLINE : gset string.
Variable SUPPORT_SHOW_ON_CAGE : gset string.
Variable pcoll : string -> Z.

Definition empty_space : widget := label "" (Some (pcoll "EMPTY_SPACE")).

Definition show_in_editmode_button (modifier : modifier) (use_in_list : bool)
  : layout :=
  if bool_decide (type modifier ∈ DONT_SUPPORT_SHOW_IN_EDITMODE) then
    [container Row (fresh true) [empty_space]]
  else
    let r := fresh true in
    let r := if negb use_in_list then set_active (show_viewport modifier) r else r in
    let '(show_in_editmode_on, show_in_editmode_off) :=
      if negb (show_viewport modifier) && use_in_list
      then (pcoll "SHOW_IN_EDITMODE_ON_INACTIVE", pcoll "SHOW_IN_EDITMODE_OFF_INACTIVE")
      else (pcoll "SHOW_IN_EDITMODE_ON", pcoll "SHOW_IN_EDITMODE_OFF") in
    let show := show_in_editmode modifier in
    let icon := if show then show_in_editmode_on else show_in_editmode_off in
    [container Row r
       [prop (name modifier) "show_in_editmode" "" (Some icon) (negb use_in_list)]].

Definition use_apply_on_spline_button (modifier : modifier) (use_in_list : bool)
  : layout :=
  if negb (bool_decide (type modifier ∈ SUPPORT_USE_APPLY_ON_SPLINE)) then
    [container Row (fresh true) [empty_space]]
  else
    let apply_on := use_apply_on_spline modifier in
    let icon := if apply_on then pcoll "USE_APPLY_ON_SPLINE_ON"
                else pcoll "USE_APPLY_ON_SPLINE_OFF" in
    [container Row (fresh true)
       [prop (name modifier) "use_apply_on_spline" "" (Some icon) (negb use_in_list)]].

(** The test of the first loop of [show_on_cage_button]. *)
Definition blocks_cage (m : modifier) : bool :=
  show_in_editmode m && negb (bool_decide (type m ∈ SUPPORT_SHOW_ON_CAGE)).

(** The test of its second loop. *)
Definition owns_cage (m : modifier) : bool :=
  show_viewport m && show_in_editmode m && show_on_cage m.

(** [mods[0:end_index]], the modifiers the first loop runs over. *)
Definition scanned_before (mods : list modifier) (mod_index : Z) : list modifier :=
  let end_index := Py.np_clip mod_index 1 99 in
  Py.slice mods 0 end_index.

(** [mods[(mod_index + 1):(len(mods))]], those of the second loop. *)
Definition scanned_after (mods : list modifier) (mod_index : Z) : list modifier :=
  Py.slice mods (mod_index + 1) (Z.of_nat (length mods)).

(** Returns whether the button was added, and what was added to [layout]. *)
Definition show_on_cage_button (object : object) (modifier : modifier)
    (use_in_list : bool) : bool * layout :=
  if negb (bool_decide (type modifier ∈ SUPPORT_SHOW_ON_CAGE)) then (false, [])
  else
    let mods := modifiers object in
    let mod_index := find (name modifier) mods in
    let is_before_show_in_editmode_on :=
      Py.for_break blocks_cage (scanned_before mods mod_index) in
    if is_before_show_in_editmode_on then (false, [])
    else
      let is_after_show_on_cage_on :=
        Py.for_break owns_cage (scanned_after mods mod_index) in
      let r := fresh true in
      let inactive := negb (show_viewport modifier)
                      || negb (show_in_editmode modifier)
                      || is_after_show_on_cage_on in
      let '(show_on_cage_on, show_on_cage_off, r) :=
        if inactive then
          if use_in_list
          then (pcoll "SHOW_ON_CAGE_ON_INACTIVE", pcoll "SHOW_ON_CAGE_OFF_INACTIVE", r)
          else (pcoll "SHOW_ON_CAGE_ON", pcoll "SHOW_ON_CAGE_OFF", set_active false r)
        else (pcoll "SHOW_ON_CAGE_ON", pcoll "SHOW_ON_CAGE_OFF", r) in
      let icon := if show_on_cage modifier then show_on_cage_on else show_on_cage_off in
      (true,
       [container Row r
          [prop (name modifier) "show_on_cage" "" (Some icon) (negb use_in_list)]]).

Definition properties_context_change (ctx : string) : widget :=
  operator "wm.properties_context_change" None (Some "PROPERTIES") false false
    [("context", ctx)].

Definition curve_properties_context_change_button (use_in_list : bool) : layout :=
  if use_in_list then [container Row (fresh true) [empty_space]]
  else [container Row (fresh true) [properties_context_change "PHYSICS"]].

Definition mesh_properties_context_change_button (c : context)
    (modifier : modifier) (use_in_list : bool) : bool * layout :=
  if negb (bool_decide (area_type c = "PROPERTIES")) || use_in_list then (false, [])
  else
    let have_phys_context_button : gset string :=
      if (fst (app_version c) =? 2) && (snd (app_version c) <? 82)
      then {[ "CLOTH"; "COLLISION"; "FLUID_SIMULATION"; "DYNAMIC_PAINT";
              "SMOKE"; "SOFT_BODY" ]}
      else {[ "CLOTH"; "COLLISION"; "FLUID"; "DYNAMIC_PAINT"; "SOFT_BODY" ]} in
    if bool_decide (type modifier ∈ have_phys_context_button) then
      (true, [container Row (fresh true) [properties_context_change "PHYSICS"]])
    else if bool_decide (type modifier = "PARTICLE_SYSTEM") then
      (true, [container Row (fresh true) [properties_context_change "PARTICLES"]])
    else (false, []).

(** The widgets [modifier_visibility_buttons] adds to [layout]: one row
    holding the toggles of [modifier]. *)
Definition modifier_visibility_buttons (c : context) (modifier : modifier)
    (use_in_list : bool) : layout :=
  let r := set_scale_x (if use_in_list then 1 else 12 # 10) (fresh true) in
  let emboss := negb use_in_list in
  let sub :=
    container Row (fresh true)
      (if bool_decide (type modifier = "COLLISION")
       then [empty_space; empty_space]
       else [prop (name modifier) "show_render" "" None emboss;
             prop (name modifier) "show_viewport" "" None emboss]) in
  let editmode := show_in_editmode_button modifier use_in_list in
  let ob := get_ml_active_object c in
  let rest :=
    if bool_decide (ob_type ob = "LATTICE") then []
    else if negb (bool_decide (ob_type ob = "MESH")) then
      if bool_decide (type modifier = "SOFT_BODY")
      then curve_properties_context_change_button use_in_list
      else use_apply_on_spline_button modifier use_in_list
    else
      let '(show_on_cage_added, cage) := show_on_cage_button ob modifier use_in_list in
      let '(context_change_added, change) :=
        if negb show_on_cage_added
        then mesh_properties_context_change_button c modifier use_in_list
        else (false, []) in
      let filler :=
        if negb show_on_cage_added && negb context_change_added
        then [container Row (fresh true) [empty_space]]
        else [] in
      (cage ++ change ++ filler)%list in
  [container Row r (sub :: editmode ++ rest)%list].

End Resolver.

(** ** Host primitives on a modifier sequence *)

Module Host.

Section Rule.

(** Modelled from the spec: the host does not make every swap it is asked
    for. It refuses to move a modifier above one that needs the original
    data, the case the spec leaves open. [refuses above below] tells
    whether the host refuses to swap the adjacent entries [above] and
    [below]; the rule is the host's and is not part of this repository. *)
Variable refuses : modifier -> modifier -> bool.

(** Modelled from the spec: one swap of the entry called [n] with its
    immediate predecessor, or [None] when nothing moves: the host refuses
    the swap, the entry is first, or the name is not in the sequence. *)
Definition try_move_up (n : string) (mods : list modifier)
  : option (list modifier) :=
  let i := find n mods in
  if 0 <? i then
    match mods !! Z.to_nat (i - 1), mods !! Z.to_nat i with
    | Some p, Some m =>
        if refuses p m then None
        else Some (<[Z.to_nat (i - 1) := m]> (<[Z.to_nat i := p]> mods))
    | _, _ => None
    end
  else None.

(** Modelled from the spec: one swap of the entry called [n] with its
    immediate successor, or [None] when nothing moves. *)
Definition try_move_down (n : string) (mods : list modifier)
  : option (list modifier) :=
  let i := find n mods in
  if 0 <=? i then
    match mods !! Z.to_nat i, mods !! Z.to_nat (i + 1) with
    | Some m, Some q =>
        if refuses m q then None
        else Some (<[Z.to_nat i := q]> (<[Z.to_nat (i + 1) := m]> mods))
    | _, _ => None
    end
  else None.

(** Modelled from the spec: the host's swap-adjacent primitive
    ([bpy.ops.object.modifier_move_up]), which is not part of this
    repository. It swaps the entry called [n] with its immediate
    predecessor; a swap the host refuses, an entry that is first, or a
    name that is not in the sequence, leaves the sequence as it is. *)
Definition modifier_move_up (n : string) (mods : list modifier) : list modifier :=
  default mods (try_move_up n mods).

(** Modelled from the spec: up to [k] swaps, one after the other, ending
    at the first that does not move the entry. *)
Fixpoint move_while (step : list modifier -> option (list modifier)) (k : nat)
    (mods : list modifier) : list modifier :=
  match k with
  | O => mods
  | S k' =>
      match step mods with
      | Some mods' => move_while step k' mods'
      | None => mods
      end
  end.

(** Modelled from the spec: the host's move-to-index primitive
    ([bpy.ops.object.modifier_move_to_index], host 2.90 and later),
    which is not part of this repository. It moves the entry called [n]
    towards position [index] one swap at a time and stops at the first
    swap the host refuses, so the order of the others is kept; a name
    that is not in the sequence, or a position outside it, leaves the
    sequence as it is. *)
Definition modifier_move_to_index (n : string) (index : Z)
    (mods : list modifier) : list modifier :=
  let i := find n mods in
  if (i <? 0) || (index <? 0) || (Z.of_nat (length mods) <=? index) then mods
  else if i <? index then move_while (try_move_down n) (Z.to_nat (index - i)) mods
  else move_while (try_move_up n) (Z.to_nat (i - index)) mods.

End Rule.

(** Modelled from the spec: the host's remove primitive
    ([ob.modifiers.remove(mod)]), which is not part of this repository.
    The entry leaves the sequence and is destroyed. *)
Definition remove (m : modifier) (mods : list modifier) : list modifier :=
  let i := find (name m) mods in
  if i <? 0 then mods else delete (Z.to_nat i) mods.

(** Modelled from the spec: iteration over the host's sequence, which is
    not part of this repository. The sequence is live: the iterator is a
    cursor on one of its entries (here the entry's name, unique in the
    sequence), and a step hands out the entry under the cursor after
    moving the cursor to that entry's successor. *)
Definition cursor := option string.

Definition iter_begin (mods : list modifier) : cursor := name <$> head mods.

Definition iter_next (mods : list modifier) (cur : cursor)
  : option (modifier * cursor) :=
  match cur with
  | None => None
  | Some n =>
      let i := find n mods in
      if i <? 0 then None
      else
        match mods !! Z.to_nat i with
        | Some m => Some (m, name <$> mods !! S (Z.to_nat i))
        | None => None
        end
  end.

End Host.

Inductive status := FINISHED | CANCELLED.

(** ** List-reorder controller ([modules/operators/modifier_move_up.py]) *)

Module OBJECT_OT_ml_modifier_move_up.

Section Operator.

(** The host's rule for refusing a swap, see [Host]. *)
Variable refuses : modifier -> modifier -> bool.

(** [is_modifier_local(ob, mod)] of [utils], a module outside the files
    modelled here. *)
Variable is_modifier_local : object -> modifier -> bool.

Definition poll (c : context) : Py.result bool :=
  let ob := get_ml_active_object c in
  let active_mod_index := ml_modifier_active_index ob in
  let mods := modifiers ob in
  if bool_decide (modifiers ob = []) then Py.Ok false
  else if active_mod_index =? 0 then Py.Ok false
  else
    m <- Py.index mods active_mod_index ;;
    Py.Ok (is_modifier_local ob m).

(** [bpy.ops.object.modifier_move_up(override, modifier=n)]: the host
    operator runs on [override['object']], the add-on's object. *)
Definition ops_modifier_move_up (n : string) (c : context) : context :=
  on_ml_active_object
    (fun ob => set_modifiers (Host.modifier_move_up refuses n (modifiers ob)) ob) c.

(** [bpy.ops.object.modifier_move_to_index(modifier=n, index=i)]: called
    without an override, the host operator runs on [context.object]. *)
Definition ops_modifier_move_to_index (n : string) (i : Z) (c : context)
  : context :=
  on_context_object
    (fun ob =>
       set_modifiers (Host.modifier_move_to_index refuses n i (modifiers ob)) ob) c.

Definition execute (c : context) (shift : bool) : Py.result (context * status) :=
  let ml_active_ob := get_ml_active_object c in
  let active_mod_index := ml_modifier_active_index ml_active_ob in
  m <- Py.index (modifiers ml_active_ob) active_mod_index ;;
  let active_mod_name := name m in
  if shift then
    let c :=
      if Qle_bool (290 # 100) (version_major_point_minor c)
      then ops_modifier_move_to_index active_mod_name 0 c
      else Nat.iter (Z.to_nat active_mod_index)
             (ops_modifier_move_up active_mod_name) c in
    Py.Ok (on_ml_active_object (set_ml_modifier_active_index 0) c, FINISHED)
  else
    let c := ops_modifier_move_up active_mod_name c in
    Py.Ok (on_ml_active_object
             (set_ml_modifier_active_index
                (Py.np_clip (active_mod_index - 1) 0 999)) c,
           FINISHED).

Definition invoke (c : context) (event_shift : bool)
  : Py.result (context * status) :=
  execute c event_shift.

(** The host runs an operator only where its [poll] returns True; a
    refused command leaves everything as it was. *)
Definition call (c : context) (event_shift : bool) : Py.result context :=
  ok <- poll c ;;
  if ok : bool then
    r <- invoke c event_shift ;;
    Py.Ok (fst r)
  else Py.Ok c.

End Operator.

End OBJECT_OT_ml_modifier_move_up.

(** ** Remove all modifiers ([modules/operators/object_remove_all_modifiers.py]) *)

Module OBJECT_OT_ml_remove_all_modifiers.

Inductive report_type := INFO.

Definition report : Type := report_type * string.

(** [for mod in ob.modifiers: ob.modifiers.remove(mod); obs_have_mods = True]
    on the live sequence [mods]. The loop ends when the iterator is
    exhausted; [None] is a run that [fuel] steps did not finish. *)
Fixpoint remove_loop (fuel : nat) (cur : Host.cursor) (mods : list modifier)
    (obs_have_mods : bool) : option (list modifier * bool) :=
  match fuel with
  | O => None
  | S fuel' =>
      match Host.iter_next mods cur with
      | None => Some (mods, obs_have_mods)
      | Some (m, cur') => remove_loop fuel' cur' (Host.remove m mods) true
      end
  end.

(** The outer loop, [for ob in obs]. *)
Fixpoint remove_from_each (obs : list object) (obs_have_mods : bool)
  : option (list object * bool) :=
  match obs with
  | [] => Some ([], obs_have_mods)
  | ob :: obs' =>
      let mods := modifiers ob in
      r ← remove_loop (S (length mods)) (Host.iter_begin mods) mods obs_have_mods;
      r' ← remove_from_each obs' (snd r);
      Some (set_modifiers (fst r) ob :: fst r', snd r')
  end.

(** [execute] on the selection [context.selected_objects]: the selection
    afterwards, what was reported, and the operator's return value. *)
Definition execute (obs : list object)
  : option (list object * list report * status) :=
  if bool_decide (obs = []) then Some (obs, [(INFO, "No selection")], CANCELLED)
  else
    r ← remove_from_each obs false;
    let '(obs, obs_have_mods) := r in
    if negb obs_have_mods
    then Some (obs, [(INFO, "No modifiers to remove")], CANCELLED)
    else Some (obs, [(INFO, "Removed all modifiers")], FINISHED).

End OBJECT_OT_ml_remove_all_modifiers.

(** ** Panels that read the active modifier ([modules/ui/modifiers_ui.py]) *)

Module OBJECT_PT_ml_gizmo_object_settings.

Section Panel.

(** [get_gizmo_object_from_modifier(mod)] of [utils], a module outside the
    files modelled here: the gizmo object, or None. *)
Variable get_gizmo_object_from_modifier : modifier -> option object.

Definition contains (needle s : string) : bool :=
  bool_decide (is_Some (String.index 0 needle s)).

Definition plain_operator (idname : string) (text : option string) : widget :=
  operator idname text None true false [].

Definition parent_rows (ob gizmo_ob : object) : layout :=
  let is_ob_parented_to_gizmo := bool_decide (parent ob = Some (ob_name gizmo_ob)) in
  let is_gizmo_parented_to_ob := bool_decide (parent gizmo_ob = Some (ob_name ob)) in
  let py_bool (b : bool) := if b then "True" else "False" in
  [container Row
     (if is_ob_parented_to_gizmo then set_enabled false (fresh false) else fresh false)
     [operator "object.ml_gizmo_object_parent_set" (Some "Gizmo To Active Object")
        None true is_gizmo_parented_to_ob [("unset", py_bool is_gizmo_parented_to_ob)]];
   container Row
     (if is_gizmo_parented_to_ob then set_enabled false (fresh false) else fresh false)
     [operator "object.ml_gizmo_object_child_set" (Some "Active Object To Gizmo")
        None true is_ob_parented_to_gizmo [("unset", py_bool is_ob_parented_to_gizmo)]]].

Definition draw (c : context) : Py.result layout :=
  let ob := get_ml_active_object c in
  if bool_decide (modifiers ob = []) then Py.Ok []
  else
    let active_mod_index := ml_modifier_active_index ob in
    active_mod <- Py.index (modifiers ob) active_mod_index ;;
    match get_gizmo_object_from_modifier active_mod with
    | None => Py.Ok [label "Deleted gizmo" None]
    | Some gizmo_ob =>
        let g := ob_name gizmo_ob in
        Py.Ok
          ([prop g "name" "" None true]
           ++ (if bool_decide (ob_type gizmo_ob = "EMPTY")
               then [prop g "empty_display_type" "" None true;
                     prop g "empty_display_size" "Display Size" None true]
               else [])
           ++ [separator;
               plain_operator "object.ml_gizmo_object_reset_transform"
                 (Some "Reset Transform");
               label "Location:" None;
               container Column (fresh false) [prop g "location" "" None true];
               label "Rotation:" None;
               container Column (fresh false) [prop g "rotation_euler" "" None true];
               label "Parent" None;
               container Column (fresh true) (parent_rows ob gizmo_ob);
               separator;
               operator "object.ml_select" (Some "Select Gizmo") None true false
                 [("object_name", g)]]
           ++ (if bool_decide (ob_type gizmo_ob ∈ ["EMPTY"; "LATTICE"])
                  && contains "_Gizmo" g
               then [plain_operator "object.ml_gizmo_object_delete" None]
               else []))%list
    end.

End Panel.

End OBJECT_PT_ml_gizmo_object_settings.

Section ModifiersUI.

(** Everything [modifiers_ui] draws below the context pointer: the
    favourites, the search field, the list, the batch and list operators
    and the settings of the active modifier. *)
Variable modifiers_ui_body : context -> Py.result layout.

Definition modifiers_ui (c : context) : Py.result layout :=
  let ob := get_ml_active_object c in
  let active_mod_index := ml_modifier_active_index ob in
  let nonempty := negb (bool_decide (modifiers ob = [])) in
  if nonempty && (Z.of_nat (length (modifiers ob)) - 1 <? active_mod_index) then
    Py.Ok [label "The active modifier index has gotten out of range..." None;
           operator "object.ml_reset_modifier_active_index" None None true false []]
  else
    pointer <- (if nonempty then
                  m <- Py.index (modifiers ob) (ml_modifier_active_index ob) ;;
                  Py.Ok [context_pointer_set "modifier" (name m)]
                else Py.Ok []) ;;
    body <- modifiers_ui_body c ;;
    Py.Ok (pointer ++ body)%list.

End ModifiersUI.

(** ** The favourites grid of [modifiers_ui] ([modules/ui/modifiers_ui.py]) *)

(** The two add-on preferences the grid reads. *)
Record preferences := Preferences {
  favourites_per_row : string;
  use_icons_in_favourites : bool;
}.

(** What [favourite_modifiers_names_icons_types()] of [utils] yields, one
    triple per favourite slot: name, icon and modifier type. A slot that
    is not set has a name that is not truthy, here the empty string. *)
Definition favourite : Type := string * string * string.

Definition truthy (s : string) : bool := negb (bool_decide (s = "")).

(** One cell of a row: the add operator of a favourite, or a blank. *)
Definition favourite_cell (prefs : preferences) (f : favourite) : widget :=
  let '(name, icon, mod_type) := f in
  if truthy name then
    let icon := if use_icons_in_favourites prefs then icon else "NONE" in
    operator "object.ml_modifier_add" (Some name) (Some icon) true false
      [("modifier_type", mod_type)]
  else label "" None.

(** The loop over the favourites. The [for] statement takes one triple
    from the iterator and the body takes one or two more with [next()];
    [None] is the StopIteration that [next()] raises when the iterator is
    exhausted in the body. *)
Fixpoint favourites_rows (prefs : preferences) (favs : list favourite)
  : option layout :=
  let place_three_per_row := bool_decide (favourites_per_row prefs = "3") in
  match favs with
  | [] => Some []
  | f :: rest =>
      match rest with
      | [] => None
      | next_mod_1 :: rest =>
          if place_three_per_row then
            match rest with
            | [] => None
            | next_mod_2 :: rest =>
                let cells := [favourite_cell prefs f;
                              favourite_cell prefs next_mod_1;
                              favourite_cell prefs next_mod_2] in
                let row :=
                  if truthy (f.1.1) || truthy (next_mod_1.1.1)
                     || truthy (next_mod_2.1.1)
                  then [container Row (fresh true) cells] else [] in
                rows ← favourites_rows prefs rest;
                Some (row ++ rows)
            end
          else
            let cells := [favourite_cell prefs f; favourite_cell prefs next_mod_1] in
            let row :=
              if truthy (f.1.1) || truthy (next_mod_1.1.1)
              then [container Row (fresh true) cells] else [] in
            rows ← favourites_rows prefs rest;
            Some (row ++ rows)
      end
  end.

(** [col = layout.column(align=True)] and the rows in it. *)
Definition favourites_grid (prefs : preferences) (favs : list favourite)
  : option layout :=
  rows ← favourites_rows prefs favs;
  Some [container Column (fresh true) rows].

(** ** The extras popover ([modules/ui/modifiers_ui.py]) *)

Module OBJECT_PT_ml_modifier_extras.

(** The panel's [ui_units_x] and the widgets it draws. *)
Definition draw (c : context) : Py.result (Z * layout) :=
  let ui_units_x := 11 in
  copy <-
    (if Qle_bool (292 # 100) (version_major_point_minor c) then
       let ob := get_ml_active_object c in
       if negb (bool_decide (modifiers ob = [])) then
         active_mod <- Py.index (modifiers ob) (ml_modifier_active_index ob) ;;
         Py.Ok [operator "object.modifier_copy_to_selected" None None true false
                  [("modifier", name active_mod)];
                separator]
       else
         Py.Ok [container Row (set_enabled false (fresh false))
                  [operator "object.modifier_copy_to_selected" None None true false []];
                separator]
     else Py.Ok []) ;;
  Py.Ok
    (ui_units_x,
     copy ++
     [label "Syncronize Modifiers Between Instances:" None;
      operator "object.ml_sync_active_modifier_between_instances" (Some "Active Only")
        None true false [];
      operator "object.ml_sync_all_modifiers_between_instances" (Some "All")
        None true false [];
      separator;
      operator "wm.ml_favourite_modifiers_configuration_popup" None None true false []]).

End OBJECT_PT_ml_modifier_extras.

(** ** Repeating the single step *)

(** [k] runs of move-up without shift, one after the other, on a host
    with the rule [refuses]. *)
Fixpoint single_steps (refuses : modifier -> modifier -> bool) (k : nat)
    (c : context) : Py.result context :=
  match k with
  | O => Py.Ok c
  | S k' =>
      r <- OBJECT_OT_ml_modifier_move_up.execute refuses c false ;;
      single_steps refuses k' (fst r)
  end.

(** ** Reading the scene and a layout *)

Definition has_modifiers (ob : object) : bool :=
  if modifiers ob is [] then false else true.


(** Whether an operator button is somewhere in [w]. *)
Fixpoint has_operator (w : widget) : bool :=
  match w with
  | operator _ _ _ _ _ _ => true
  | container _ _ ws => existsb has_operator ws
  | _ => false
  end.

(** The cells of a row or column. *)
Definition cells_of (w : widget) : list widget :=
  match w with
  | container _ _ ws => ws
  | _ => []
  end.

(** Whether the toggle of [property] of the modifier called [owner] is
    somewhere in [w]. *)
Fixpoint shows (owner property : string) (w : widget) : bool :=
  match w with
  | prop o p _ _ _ => bool_decide (p = property) && bool_decide (o = owner)
  | container _ _ ws => existsb (shows owner property) ws
  | _ => false
  end.

(** ** Sample data

    Small tables, icon ids and scenes to run the definitions on. *)

Module Sample.

Definition SUPPORT_SHOW_ON_CAGE : gset string :=
  {[ "ARRAY"; "ARMATURE"; "DISPLACE"; "MIRROR"; "SOLIDIFY"; "SUBSURF" ]}.

Definition DONT_SUPPORT_SHOW_IN_EDITMODE : gset string :=
  {[ "BUILD"; "CLOTH"; "COLLISION"; "DECIMATE"; "MULTIRES"; "PARTICLE_SYSTEM" ]}.

Definition SUPPORT_USE_APPLY_ON_SPLINE : gset string :=
  {[ "ARMATURE"; "CURVE"; "HOOK"; "LATTICE" ]}.

Definition icon_keys : list string :=
  [ "EMPTY_SPACE";
    "SHOW_IN_EDITMODE_ON"; "SHOW_IN_EDITMODE_OFF";
    "SHOW_IN_EDITMODE_ON_INACTIVE"; "SHOW_IN_EDITMODE_OFF_INACTIVE";
    "SHOW_ON_CAGE_ON"; "SHOW_ON_CAGE_OFF";
    "SHOW_ON_CAGE_ON_INACTIVE"; "SHOW_ON_CAGE_OFF_INACTIVE";
    "USE_APPLY_ON_SPLINE_ON"; "USE_APPLY_ON_SPLINE_OFF" ].

(** Icon ids in loading order, from 1. *)
Fixpoint icon_id_from (n : Z) (keys : list string) (key : string) : Z :=
  match keys with
  | [] => 0
  | k :: keys' => if decide (k = key) then n else icon_id_from (n + 1) keys' key
  end.

Definition pcoll : string -> Z := icon_id_from 1 icon_keys.

Definition bevel : modifier :=
  {| name := "Bevel"; type := "BEVEL"; show_viewport := true; show_render := true;
     show_in_editmode := true; show_on_cage := false;
     use_apply_on_spline := false |}.

Definition subsurf : modifier :=
  {| name := "Subdivision"; type := "SUBSURF"; show_viewport := true;
     show_render := true; show_in_editmode := true; show_on_cage := false;
     use_apply_on_spline := false |}.

Definition mirror : modifier :=
  {| name := "Mirror"; type := "MIRROR"; show_viewport := true;
     show_render := true; show_in_editmode := true; show_on_cage := true;
     use_apply_on_spline := false |}.

Definition cloth : modifier :=
  {| name := "Cloth"; type := "CLOTH"; show_viewport := true;
     show_render := true; show_in_editmode := false; show_on_cage := false;
     use_apply_on_spline := false |}.

Definition mesh (mods : list modifier) (active : Z) : object :=
  {| ob_name := "Cube"; ob_type := "MESH"; modifiers := mods;
     ml_modifier_active_index := active; parent := None |}.

(** A long stack of arrays, each called after its position. *)
Definition array_name (k : nat) : string := "Array." +:+ pretty k.

Definition array (k : nat) : modifier :=
  {| name := array_name k; type := "ARRAY"; show_viewport := true;
     show_render := true; show_in_editmode := true; show_on_cage := false;
     use_apply_on_spline := false |}.

Definition arrays (n : nat) : list modifier := array <$> seq 0 n.

(** The host at version 2.[minor], nothing pinned. *)
Definition scene (ob : object) (area : string) (minor : Z) : context :=
  {| context_object := ob; pinned_object := None; area_type := area;
     app_version := (2, minor);
     version_major_point_minor := Qmake (200 + minor) 100 |}.

(** Modelled from the spec: a rule of the host, which is not part of
    this repository. No modifier but a deforming one moves above a
    modifier that needs the original data, and such a modifier moves
    below deforming ones only. *)
Definition REQUIRES_ORIGINAL_DATA : gset string := {[ "MULTIRES" ]}.

Definition ONLY_DEFORM : gset string :=
  {[ "ARMATURE"; "CAST"; "CURVE"; "DISPLACE"; "HOOK"; "LATTICE";
     "SHRINKWRAP"; "SIMPLE_DEFORM"; "SMOOTH"; "WAVE" ]}.

Definition refuses (above below : modifier) : bool :=
  bool_decide (type above ∈ REQUIRES_ORIGINAL_DATA)
  && negb (bool_decide (type below ∈ ONLY_DEFORM)).

Definition multires : modifier :=
  {| name := "Multires"; type := "MULTIRES"; show_viewport := true;
     show_render := true; show_in_editmode := false; show_on_cage := false;
     use_apply_on_spline := false |}.

Definition curve (mods : list modifier) (active : Z) : object :=
  {| ob_name := "BezierCurve"; ob_type := "CURVE"; modifiers := mods;
     ml_modifier_active_index := active; parent := None |}.

(** A mesh pinned in the add-on while another object is the context
    object, on a host at 2.91. *)
Definition pinned_scene : context :=
  {| context_object :=
       {| ob_name := "Plane"; ob_type := "MESH"; modifiers := [mirror; bevel];
          ml_modifier_active_index := 0; parent := None |};
     pinned_object := Some (mesh [bevel; subsurf; mirror] 2);
     area_type := "VIEW_3D"; app_version := (2, 91);
     version_major_point_minor := 291 # 100 |}.

(** Six favourite slots, three of them set. *)
Definition favourites : list favourite :=
  [("Array", "MOD_ARRAY", "ARRAY"); ("", "", ""); ("Bevel", "MOD_BEVEL", "BEVEL");
   ("", "", ""); ("", "", ""); ("Mirror", "MOD_MIRROR", "MIRROR")].

Definition three_per_row : preferences :=
  {| favourites_per_row := "3"; use_icons_in_favourites := true |}.

End Sample.

(** * Properties *)

(** ** Python helpers *)

Section PyFacts.

Context {A : Type}.
Implicit Types (l : list A) (p : A -> bool).

Lemma slice_from_start l e :
  0 <= e -> Py.slice l 0 e = take (Z.to_nat e) l.
Proof.
  intros He. unfold Py.slice, Py.slice_bound.
  replace (0 <? 0) with false by reflexivity.
  destruct (e <? 0) eqn:E; [apply Z.ltb_lt in E; lia|].
  replace (Z.to_nat (Z.min 0 (Z.of_nat (length l)))) with 0%nat by lia.
  rewrite drop_0, Nat.sub_0_r.
  destruct (decide (e <= Z.of_nat (length l))) as [Hle|Hgt].
  - by rewrite Z.min_l.
  - rewrite Z.min_r, Nat2Z.id by lia.
    rewrite !take_ge; [done | lia | lia].
Qed.

Lemma slice_to_end l s :
  0 <= s -> Py.slice l s (Z.of_nat (length l)) = drop (Z.to_nat s) l.
Proof.
  intros Hs. unfold Py.slice, Py.slice_bound.
  destruct (s <? 0) eqn:E; [apply Z.ltb_lt in E; lia|].
  destruct (Z.of_nat (length l) <? 0) eqn:E'; [apply Z.ltb_lt in E'; lia|].
  rewrite Z.min_id, Nat2Z.id.
  destruct (decide (s <= Z.of_nat (length l))) as [Hle|Hgt].
  - rewrite Z.min_l by lia. apply take_ge. rewrite length_drop. lia.
  - rewrite Z.min_r, Nat2Z.id by lia.
    rewrite !drop_ge by lia. apply take_nil.
Qed.

Lemma for_break_true p l :
  Py.for_break p l = true <-> exists i x, l !! i = Some x /\ p x = true.
Proof.
  induction l as [|a l IH]; simpl.
  - split; [done | intros (i & x & H & _); by destruct i].
  - destruct (p a) eqn:Ea.
    + split; [intros _; by exists 0%nat, a | done].
    + rewrite IH. split.
      * intros (i & x & H1 & H2). by exists (S i), x.
      * intros ([|i] & x & H1 & H2); simpl in *; [congruence | by exists i, x].
Qed.

Lemma index_in_range l (i : nat) x :
  l !! i = Some x -> Py.index l (Z.of_nat i) = Py.Ok x.
Proof.
  intros H. pose proof (lookup_lt_Some _ _ _ H) as Hlt.
  unfold Py.index.
  destruct (Z.of_nat i <? 0) eqn:E; [apply Z.ltb_lt in E; lia|].
  rewrite (proj2 (Z.leb_le _ _)), (proj2 (Z.ltb_lt _ _)) by lia.
  simpl. by rewrite Nat2Z.id, H.
Qed.

Lemma index_past_end l (i : Z) :
  Z.of_nat (length l) <= i -> Py.index l i = Py.Raise Py.IndexError.
Proof.
  intros H. unfold Py.index.
  destruct (i <? 0) eqn:E; [apply Z.ltb_lt in E; lia|].
  rewrite (proj2 (Z.ltb_ge _ _)) by lia. by rewrite andb_false_r.
Qed.

End PyFacts.

(** ** Names identify the entries of a sequence *)

Lemma find_lookup (mods : list modifier) (i : nat) (m : modifier) :
  NoDup (name <$> mods) -> mods !! i = Some m ->
  find (name m) mods = Z.of_nat i.
Proof.
  revert i. induction mods as [|a mods IH]; intros i Hnd Hi; [done|].
  apply NoDup_cons in Hnd as [Hnotin Hnd]. simpl.
  destruct i as [|i]; simpl in Hi.
  - injection Hi as ->. by rewrite decide_True.
  - rewrite decide_False.
    + rewrite (IH i Hnd Hi).
      destruct (Z.of_nat i <? 0) eqn:E; [apply Z.ltb_lt in E|]; lia.
    + intros Heq. apply Hnotin. rewrite Heq.
      apply list_elem_of_fmap. exists m. split; [done|].
      by eapply list_elem_of_lookup_2.
Qed.

Lemma find_range (n : string) (mods : list modifier) :
  -1 <= find n mods < Z.of_nat (length mods).
Proof.
  induction mods as [|a mods IH]; simpl; [lia|].
  destruct (decide (name a = n)); [lia|].
  destruct (find n mods <? 0) eqn:E; [apply Z.ltb_lt in E | apply Z.ltb_ge in E]; lia.
Qed.

(** ** The visibility-state resolver *)

Section ResolverFacts.

Variable DONT_SUPPORT_SHOW_IN_EDITMODE : gset string.
Variable SUPPORT_USE_APPLY_ON_SPLINE : gset string.
Variable SUPPORT_SHOW_ON_CAGE : gset string.
Variable pcoll : string -> Z.

(** C8, as the code has it. The show_in_editmode button is replaced by
    the empty placeholder exactly when the modifier's type is in the
    unsupported set. Otherwise the toggle is drawn on a row that is always
    enabled: in the detail panel the row is drawn active iff show_viewport
    is on and the icons are the normal ones; in the list the row is always
    drawn active and the icons are the muted ones when show_viewport is
    off. *)
Theorem show_in_editmode_button_spec (m : modifier) (use_in_list : bool) :
  let out := show_in_editmode_button DONT_SUPPORT_SHOW_IN_EDITMODE pcoll m use_in_list in
  let placeholder := [container Row (fresh true) [label "" (Some (pcoll "EMPTY_SPACE"))]] in
  let normal := if show_in_editmode m then "SHOW_IN_EDITMODE_ON"
                else "SHOW_IN_EDITMODE_OFF" in
  let muted := if show_in_editmode m then "SHOW_IN_EDITMODE_ON_INACTIVE"
               else "SHOW_IN_EDITMODE_OFF_INACTIVE" in
  (type m ∈ DONT_SUPPORT_SHOW_IN_EDITMODE <-> out = placeholder) /\
  (type m ∉ DONT_SUPPORT_SHOW_IN_EDITMODE ->
   exists a icon,
     out = [container Row a
              [prop (name m) "show_in_editmode" "" (Some icon) (negb use_in_list)]] /\
     align a = true /\ enabled a = true /\
     (use_in_list = false ->
        active a = show_viewport m /\ icon = pcoll normal) /\
     (use_in_list = true ->
        active a = true /\
        icon = pcoll (if show_viewport m then normal else muted))).
Proof.
  unfold show_in_editmode_button. simpl. split.
  - case_bool_decide as Hin; [done|]. split; [done|].
    destruct use_in_list, (show_viewport m), (show_in_editmode m); discriminate.
  - intros Hnotin. rewrite bool_decide_eq_false_2 by done.
    destruct use_in_list, (show_viewport m) eqn:Ev, (show_in_editmode m) eqn:Es;
      simpl; eexists _, _; (split; [reflexivity|]); simpl;
      repeat split; intros; congruence.
Qed.

(** *** The two scans of [show_on_cage_button] *)

Lemma scanned_before_take (mods : list modifier) (i : Z) :
  scanned_before mods i = take (Z.to_nat (Z.min (Z.max i 1) 99)) mods.
Proof. unfold scanned_before, Py.np_clip. apply slice_from_start. lia. Qed.

Lemma scanned_after_drop (mods : list modifier) (i : Z) :
  -1 <= i -> scanned_after mods i = drop (Z.to_nat (i + 1)) mods.
Proof. intros Hi. unfold scanned_after. apply slice_to_end. lia. Qed.

Lemma blocks_cage_true (m : modifier) :
  blocks_cage SUPPORT_SHOW_ON_CAGE m = true <->
  show_in_editmode m = true /\ type m ∉ SUPPORT_SHOW_ON_CAGE.
Proof.
  unfold blocks_cage. rewrite andb_true_iff, negb_true_iff, bool_decide_eq_false.
  done.
Qed.

(** The first scan finds a blocker iff one sits below position
    [min (max i 1) 99]. *)
Lemma before_scan_true (mods : list modifier) (i : Z) :
  Py.for_break (blocks_cage SUPPORT_SHOW_ON_CAGE) (scanned_before mods i) = true <->
  exists (j : nat) m', (Z.of_nat j < Z.min (Z.max i 1) 99) /\ mods !! j = Some m' /\
                       show_in_editmode m' = true /\ type m' ∉ SUPPORT_SHOW_ON_CAGE.
Proof.
  rewrite for_break_true, scanned_before_take. split.
  - intros (j & x & Hj & Hx). apply lookup_take_Some in Hj as [Hj Hlt].
    apply blocks_cage_true in Hx. exists j, x. split; [lia | tauto].
  - intros (j & x & Hlt & Hj & Hx). exists j, x. split.
    + apply lookup_take_Some. split; [done | lia].
    + by apply blocks_cage_true.
Qed.

Lemma after_scan_true (mods : list modifier) (i : nat) :
  Py.for_break owns_cage (scanned_after mods (Z.of_nat i)) = true <->
  exists (j : nat) m', (i < j)%nat /\ mods !! j = Some m' /\ owns_cage m' = true.
Proof.
  rewrite for_break_true, scanned_after_drop by lia.
  replace (Z.to_nat (Z.of_nat i + 1)) with (S i) by lia. split.
  - intros (j & x & Hj & Hx). rewrite lookup_drop in Hj.
    exists (S i + j)%nat, x. split; [lia | done].
  - intros (j & x & Hlt & Hj & Hx). exists (j - S i)%nat, x.
    rewrite lookup_drop. replace (S i + (j - S i))%nat with j by lia. done.
Qed.

(** No blocker before the target: the first scan finds nothing, also
    when it runs over the target itself (index 0). *)
Lemma before_scan_clear (mods : list modifier) (i : nat) (m : modifier) :
  mods !! i = Some m ->
  type m ∈ SUPPORT_SHOW_ON_CAGE ->
  (forall (j : nat) m', (j < i)%nat -> mods !! j = Some m' ->
                        ~ (show_in_editmode m' = true /\ type m' ∉ SUPPORT_SHOW_ON_CAGE)) ->
  Py.for_break (blocks_cage SUPPORT_SHOW_ON_CAGE) (scanned_before mods (Z.of_nat i)) = false.
Proof.
  intros Hi Hcap Hclear. apply not_true_iff_false. rewrite before_scan_true.
  intros (j & x & Hlt & Hj & Hx).
  destruct (decide (j < i)%nat) as [Hji|Hji]; [by eapply Hclear|].
  assert (i = 0%nat /\ j = 0%nat) as [-> ->] by lia.
  rewrite Hi in Hj. injection Hj as <-. tauto.
Qed.

(** What [show_on_cage_button] adds for a cage-capable target at index
    [i] with no blocker before it and a later modifier that has
    show_viewport, show_in_editmode and show_on_cage all on. *)
Lemma show_on_cage_button_later_owner
    (ob : object) (i : nat) (m : modifier) (use_in_list : bool) :
  NoDup (name <$> modifiers ob) ->
  modifiers ob !! i = Some m ->
  type m ∈ SUPPORT_SHOW_ON_CAGE ->
  (forall (j : nat) m', (j < i)%nat -> modifiers ob !! j = Some m' ->
                        ~ (show_in_editmode m' = true /\ type m' ∉ SUPPORT_SHOW_ON_CAGE)) ->
  (exists (j : nat) m', (i < j)%nat /\ modifiers ob !! j = Some m' /\
                        show_viewport m' = true /\ show_in_editmode m' = true /\
                        show_on_cage m' = true) ->
  let key :=
    if use_in_list
    then (if show_on_cage m then "SHOW_ON_CAGE_ON_INACTIVE"
          else "SHOW_ON_CAGE_OFF_INACTIVE")
    else (if show_on_cage m then "SHOW_ON_CAGE_ON" else "SHOW_ON_CAGE_OFF") in
  show_on_cage_button SUPPORT_SHOW_ON_CAGE pcoll ob m use_in_list =
    (true,
     [container Row
        (if use_in_list then fresh true else set_active false (fresh true))
        [prop (name m) "show_on_cage" "" (Some (pcoll key)) (negb use_in_list)]]).
Proof.
  intros Hnd Hi Hcap Hclear (j & m' & Hlt & Hj & Hv & He & Hc) key.
  unfold show_on_cage_button.
  rewrite bool_decide_eq_true_2 by done. simpl.
  rewrite (find_lookup _ _ _ Hnd Hi).
  rewrite (before_scan_clear _ _ _ Hi Hcap Hclear).
  assert (Py.for_break owns_cage (scanned_after (modifiers ob) (Z.of_nat i)) = true)
    as ->.
  { apply after_scan_true. exists j, m'. unfold owns_cage.
    by rewrite Hv, He, Hc. }
  rewrite orb_true_r. subst key.
  by destruct use_in_list, (show_on_cage m).
Qed.

(** *** What the row of a modifier holds *)

Lemma show_in_editmode_button_no_cage (m : modifier) (use_in_list : bool) (owner : string) :
  existsb (shows owner "show_on_cage")
    (show_in_editmode_button DONT_SUPPORT_SHOW_IN_EDITMODE pcoll m use_in_list) = false.
Proof.
  unfold show_in_editmode_button.
  case_bool_decide; [done|].
  by destruct use_in_list, (show_viewport m), (show_in_editmode m).
Qed.

Lemma mesh_properties_context_change_button_cases
    (c : context) (m : modifier) (use_in_list : bool) :
  let r := mesh_properties_context_change_button c m use_in_list in
  r = (false, []) \/
  r = (true, [container Row (fresh true) [properties_context_change "PHYSICS"]]) \/
  r = (true, [container Row (fresh true) [properties_context_change "PARTICLES"]]).
Proof.
  unfold mesh_properties_context_change_button. simpl.
  destruct (_ || _); [by left|].
  destruct (bool_decide (type m ∈ _)); [right; by left|].
  destruct (bool_decide (type m = _)); [right; by right | by left].
Qed.

(** C1, as the code has it. A cage-capable target at index [i] on a mesh
    object, and a modifier at an index below [i] and below 99 that has
    show_in_editmode on and is not cage-capable: [show_on_cage_button]
    adds nothing and returns False, so the row of the target holds no
    show_on_cage toggle at all; it ends with the empty placeholder or
    with a properties-context-change operator instead. *)
Theorem show_on_cage_button_blocked
    (c : context) (i j : nat) (m m' : modifier) (use_in_list : bool) :
  let ob := get_ml_active_object c in
  let row_of_m :=
    modifier_visibility_buttons DONT_SUPPORT_SHOW_IN_EDITMODE
      SUPPORT_USE_APPLY_ON_SPLINE SUPPORT_SHOW_ON_CAGE pcoll c m use_in_list in
  ob_type ob = "MESH" ->
  NoDup (name <$> modifiers ob) ->
  modifiers ob !! i = Some m ->
  type m ∈ SUPPORT_SHOW_ON_CAGE ->
  (j < i)%nat -> (j < 99)%nat ->
  modifiers ob !! j = Some m' ->
  show_in_editmode m' = true ->
  type m' ∉ SUPPORT_SHOW_ON_CAGE ->
  show_on_cage_button SUPPORT_SHOW_ON_CAGE pcoll ob m use_in_list = (false, []) /\
  existsb (shows (name m) "show_on_cage") row_of_m = false /\
  exists a toggles w,
    row_of_m = [container Row a (toggles ++ [w])] /\
    (w = container Row (fresh true) [empty_space pcoll] \/
     w = container Row (fresh true) [properties_context_change "PHYSICS"] \/
     w = container Row (fresh true) [properties_context_change "PARTICLES"]).
Proof.
  intros ob row_of_m Hmesh Hnd Hi Hcap Hji Hj99 Hj He Hnc.
  assert (show_on_cage_button SUPPORT_SHOW_ON_CAGE pcoll ob m use_in_list = (false, []))
    as Hbutton.
  { unfold show_on_cage_button.
    rewrite bool_decide_eq_true_2 by done. simpl.
    rewrite (find_lookup _ _ _ Hnd Hi).
    assert (Py.for_break (blocks_cage SUPPORT_SHOW_ON_CAGE)
              (scanned_before (modifiers ob) (Z.of_nat i)) = true) as ->; [|done].
    apply before_scan_true. exists j, m'. repeat split; [lia | done..]. }
  split; [done|].
  subst row_of_m. unfold modifier_visibility_buttons. fold ob.
  rewrite Hmesh, Hbutton. simpl.
  pose proof (show_in_editmode_button_no_cage m use_in_list (name m)) as Hedit.
  pose proof (mesh_properties_context_change_button_cases c m use_in_list) as Hchange.
  simpl in Hchange.
  split.
  - rewrite existsb_app, Hedit. simpl.
    destruct Hchange as [-> | [-> | ->]]; simpl;
      by destruct (bool_decide (type m = "COLLISION")).
  - destruct Hchange as [-> | [-> | ->]]; simpl;
      eexists _, _, _;
      (split; [rewrite app_comm_cons; reflexivity|]); tauto.
Qed.

(** C5, as the code has it. A cage-capable target at index [i] on a mesh
    object, with no blocker before it and a later modifier that has
    show_viewport, show_in_editmode and show_on_cage all on:
    [show_on_cage_button] returns True and the row of the target ends with
    the show_on_cage toggle, drawn inactive: greyed out through its row
    in the detail panel, with the inactive icons in the list. *)
Theorem show_on_cage_button_owned_later
    (c : context) (i : nat) (m : modifier) (use_in_list : bool) :
  let ob := get_ml_active_object c in
  let row_of_m :=
    modifier_visibility_buttons DONT_SUPPORT_SHOW_IN_EDITMODE
      SUPPORT_USE_APPLY_ON_SPLINE SUPPORT_SHOW_ON_CAGE pcoll c m use_in_list in
  let key :=
    if use_in_list
    then (if show_on_cage m then "SHOW_ON_CAGE_ON_INACTIVE"
          else "SHOW_ON_CAGE_OFF_INACTIVE")
    else (if show_on_cage m then "SHOW_ON_CAGE_ON" else "SHOW_ON_CAGE_OFF") in
  let button :=
    container Row
      (if use_in_list then fresh true else set_active false (fresh true))
      [prop (name m) "show_on_cage" "" (Some (pcoll key)) (negb use_in_list)] in
  ob_type ob = "MESH" ->
  NoDup (name <$> modifiers ob) ->
  modifiers ob !! i = Some m ->
  type m ∈ SUPPORT_SHOW_ON_CAGE ->
  (forall (j : nat) m', (j < i)%nat -> modifiers ob !! j = Some m' ->
                        ~ (show_in_editmode m' = true /\ type m' ∉ SUPPORT_SHOW_ON_CAGE)) ->
  (exists (j : nat) m', (i < j)%nat /\ modifiers ob !! j = Some m' /\
                        show_viewport m' = true /\ show_in_editmode m' = true /\
                        show_on_cage m' = true) ->
  show_on_cage_button SUPPORT_SHOW_ON_CAGE pcoll ob m use_in_list = (true, [button]) /\
  existsb (shows (name m) "show_on_cage") row_of_m = true /\
  exists a toggles, row_of_m = [container Row a (toggles ++ [button])].
Proof.
  intros ob row_of_m key button Hmesh Hnd Hi Hcap Hclear Hlater.
  pose proof (show_on_cage_button_later_owner ob i m use_in_list
                Hnd Hi Hcap Hclear Hlater) as Hbutton.
  cbv zeta in Hbutton. fold key in Hbutton. fold button in Hbutton.
  split; [done|].
  subst row_of_m. unfold modifier_visibility_buttons. fold ob.
  rewrite Hmesh, Hbutton. simpl. split.
  - rewrite existsb_app. simpl.
    rewrite (bool_decide_eq_true_2 (name m = name m)) by done. simpl.
    by rewrite !orb_true_r.
  - eexists _, _. rewrite app_comm_cons. reflexivity.
Qed.

(** C10. For a cage-capable target at index [i], the first loop of
    [show_on_cage_button] runs over positions 0 to
    [min (max i 1) 99 - 1] of the sequence and no others: its flag is set
    iff a blocker sits at one of them; for [i = 0] it runs over the
    target itself; and the entries at positions [min (max i 1) 99] to
    [i - 1] (there are some only when [i > 99]) never reach the result.
    What the resolver returns follows the scan: it withholds the button
    iff a blocker sits at one of the scanned positions. *)
Theorem scanned_before_positions
    (ob : object) (i : nat) (m : modifier) (use_in_list : bool) :
  let mods := modifiers ob in
  let stop := Z.to_nat (Z.min (Z.max (Z.of_nat i) 1) 99) in
  let scanned := scanned_before mods (find (name m) mods) in
  NoDup (name <$> mods) ->
  mods !! i = Some m ->
  type m ∈ SUPPORT_SHOW_ON_CAGE ->
  (scanned = take stop mods /\ length scanned = stop) /\
  (Py.for_break (blocks_cage SUPPORT_SHOW_ON_CAGE) scanned = true <->
   exists (j : nat) m', (j < stop)%nat /\ mods !! j = Some m' /\
                        show_in_editmode m' = true /\ type m' ∉ SUPPORT_SHOW_ON_CAGE) /\
  (i = 0%nat -> scanned = [m]) /\
  (forall j : nat, (99 <= j < i)%nat -> scanned !! j = None) /\
  (forall mods' : list modifier,
      NoDup (name <$> mods') ->
      length mods' = length mods ->
      (forall j : nat, (j < stop)%nat \/ (i <= j)%nat -> mods' !! j = mods !! j) ->
      show_on_cage_button SUPPORT_SHOW_ON_CAGE pcoll (set_modifiers mods' ob) m use_in_list
      = show_on_cage_button SUPPORT_SHOW_ON_CAGE pcoll ob m use_in_list) /\
  (show_on_cage_button SUPPORT_SHOW_ON_CAGE pcoll ob m use_in_list = (false, []) <->
   exists (j : nat) m', (j < stop)%nat /\ mods !! j = Some m' /\
                        show_in_editmode m' = true /\ type m' ∉ SUPPORT_SHOW_ON_CAGE) /\
  (fst (show_on_cage_button SUPPORT_SHOW_ON_CAGE pcoll ob m use_in_list) = true <->
   forall (j : nat) m', (j < stop)%nat -> mods !! j = Some m' ->
                        ~ (show_in_editmode m' = true /\ type m' ∉ SUPPORT_SHOW_ON_CAGE)).
Proof.
  intros mods stop scanned Hnd Hi Hcap.
  pose proof (lookup_lt_Some _ _ _ Hi) as Hlen.
  assert (scanned = take stop mods) as Hscanned.
  { subst scanned stop. by rewrite (find_lookup _ _ _ Hnd Hi), scanned_before_take. }
  assert (Py.for_break (blocks_cage SUPPORT_SHOW_ON_CAGE) scanned = true <->
          exists (j : nat) m', (j < stop)%nat /\ mods !! j = Some m' /\
                               show_in_editmode m' = true /\
                               type m' ∉ SUPPORT_SHOW_ON_CAGE) as Hscan.
  { subst scanned. rewrite (find_lookup _ _ _ Hnd Hi), before_scan_true.
    split; intros (j & x & Hlt & H); exists j, x; (split; [lia | done]). }
  assert (show_on_cage_button SUPPORT_SHOW_ON_CAGE pcoll ob m use_in_list
          = (false, []) /\
          Py.for_break (blocks_cage SUPPORT_SHOW_ON_CAGE) scanned = true
          \/ fst (show_on_cage_button SUPPORT_SHOW_ON_CAGE pcoll ob m use_in_list)
             = true /\
             Py.for_break (blocks_cage SUPPORT_SHOW_ON_CAGE) scanned = false)
    as Hresult.
  { unfold show_on_cage_button. rewrite bool_decide_eq_true_2 by done.
    simpl. fold mods. fold scanned.
    destruct (Py.for_break _ scanned); [by left | right].
    split; [|done]. by destruct (_ || _), use_in_list. }
  split; [|split; [|split; [|split; [|split; [|split]]]]].
  6:{ rewrite <- Hscan.
      destruct Hresult as [[Hr Hb] | [Hr Hb]]; [done|].
      split; [|congruence]. intros Heq. rewrite Heq in Hr. done. }
  6:{ destruct Hresult as [[Hr Hb] | [Hr Hb]].
      - split; [by rewrite Hr|]. intros Hclear.
        apply Hscan in Hb as (j & x & Hlt & Hj & Hx). by destruct (Hclear j x).
      - split; [|done]. intros _ j x Hlt Hj Hx.
        assert (Py.for_break (blocks_cage SUPPORT_SHOW_ON_CAGE) scanned = true)
          as Hb' by (apply Hscan; eauto).
        congruence. }
  - split; [done|]. rewrite Hscanned, length_take. lia.
  - exact Hscan.
  - intros ->. rewrite Hscanned. subst stop. simpl.
    destruct mods as [|a mods0]; [done|]. simpl in Hi. injection Hi as ->.
    change (Z.to_nat (Z.min (Z.max (Z.of_nat 0) 1) 99)) with 1%nat.
    simpl. by rewrite take_0.
  - intros j Hj. rewrite Hscanned. apply lookup_take_ge. lia.
  - intros mods' Hnd' Hlen' Hsame.
    assert (mods' !! i = Some m) as Hi' by (rewrite Hsame; [done | lia]).
    unfold show_on_cage_button. simpl. fold mods.
    rewrite (find_lookup _ _ _ Hnd Hi), (find_lookup _ _ _ Hnd' Hi').
    rewrite !scanned_before_take, !scanned_after_drop by lia.
    fold stop.
    assert (take stop mods' = take stop mods) as ->.
    { apply list_eq. intros k. destruct (decide (k < stop)%nat).
      - rewrite !lookup_take_lt by done. apply Hsame. by left.
      - rewrite !lookup_take_ge by lia. done. }
    assert (drop (Z.to_nat (Z.of_nat i + 1)) mods'
            = drop (Z.to_nat (Z.of_nat i + 1)) mods) as ->; [|done].
    apply list_eq. intros k. rewrite !lookup_drop. apply Hsame. lia.
Qed.

(** C9, as the code has it. Two redraws that agree on the modifier
    sequence and the type of the add-on's object, on the target modifier
    and the display mode, and also on the type of the UI area being drawn
    and on the host version, fill the row alike; nothing else of the
    context is read. *)
Theorem modifier_visibility_buttons_inputs
    (c1 c2 : context) (m : modifier) (use_in_list : bool) :
  modifiers (get_ml_active_object c1) = modifiers (get_ml_active_object c2) ->
  ob_type (get_ml_active_object c1) = ob_type (get_ml_active_object c2) ->
  area_type c1 = area_type c2 ->
  app_version c1 = app_version c2 ->
  modifier_visibility_buttons DONT_SUPPORT_SHOW_IN_EDITMODE
    SUPPORT_USE_APPLY_ON_SPLINE SUPPORT_SHOW_ON_CAGE pcoll c1 m use_in_list
  = modifier_visibility_buttons DONT_SUPPORT_SHOW_IN_EDITMODE
      SUPPORT_USE_APPLY_ON_SPLINE SUPPORT_SHOW_ON_CAGE pcoll c2 m use_in_list.
Proof.
  intros Hmods Htype Harea Hversion.
  unfold modifier_visibility_buttons, show_on_cage_button,
    mesh_properties_context_change_button.
  by rewrite Hmods, Htype, Harea, Hversion.
Qed.

End ResolverFacts.

(** ** The host primitives *)

Section HostFacts.

Variable refuses : modifier -> modifier -> bool.

Implicit Types (m p : modifier) (mods pre post : list modifier).

Lemma find_app_notin (n : string) pre mods :
  n ∉ name <$> pre ->
  find n (pre ++ mods) =
    if find n mods <? 0 then -1 else Z.of_nat (length pre) + find n mods.
Proof.
  induction pre as [|a pre IH]; intros Hnotin; simpl.
  - destruct (find n mods <? 0) eqn:E; [|lia].
    apply Z.ltb_lt in E. pose proof (find_range n mods). lia.
  - rewrite fmap_cons, not_elem_of_cons in Hnotin. destruct Hnotin as [Hne Hnotin].
    rewrite decide_False by done. rewrite (IH Hnotin).
    destruct (find n mods <? 0) eqn:E; [done|].
    apply Z.ltb_ge in E.
    destruct (_ <? 0) eqn:E'; [apply Z.ltb_lt in E'|]; lia.
Qed.

Lemma find_middle m pre post :
  name m ∉ name <$> pre ->
  find (name m) (pre ++ m :: post) = Z.of_nat (length pre).
Proof.
  intros Hnotin. rewrite (find_app_notin _ _ _ Hnotin). simpl.
  rewrite decide_True by done. simpl. lia.
Qed.

(** One swap up, seen on the split sequence. *)
Lemma try_move_up_middle m p pre post :
  name m ∉ name <$> pre -> name p <> name m ->
  Host.try_move_up refuses (name m) (pre ++ p :: m :: post)
  = if refuses p m then None else Some (pre ++ m :: p :: post).
Proof.
  intros Hpre Hp. unfold Host.try_move_up.
  assert (find (name m) (pre ++ p :: m :: post) = Z.of_nat (S (length pre))) as ->.
  { rewrite (find_app_notin _ _ _ Hpre). simpl.
    rewrite decide_False, decide_True by done. simpl. lia. }
  replace (0 <? Z.of_nat (S (length pre))) with true by (symmetry; apply Z.ltb_lt; lia).
  replace (Z.to_nat (Z.of_nat (S (length pre)) - 1)) with (length pre + 0)%nat by lia.
  replace (Z.to_nat (Z.of_nat (S (length pre)))) with (length pre + 1)%nat by lia.
  rewrite !lookup_app_r by lia.
  replace (length pre + 0 - length pre)%nat with 0%nat by lia.
  replace (length pre + 1 - length pre)%nat with 1%nat by lia.
  cbn [lookup list_lookup]. destruct (refuses p m); [done|].
  by rewrite !insert_app_r.
Qed.

Lemma modifier_move_up_middle m p pre post :
  name m ∉ name <$> pre -> name p <> name m -> refuses p m = false ->
  Host.modifier_move_up refuses (name m) (pre ++ p :: m :: post)
  = pre ++ m :: p :: post.
Proof.
  intros Hpre Hp Hswap. unfold Host.modifier_move_up.
  by rewrite try_move_up_middle, Hswap.
Qed.

Lemma modifier_move_up_refused m p pre post :
  name m ∉ name <$> pre -> name p <> name m -> refuses p m = true ->
  Host.modifier_move_up refuses (name m) (pre ++ p :: m :: post)
  = pre ++ p :: m :: post.
Proof.
  intros Hpre Hp Hrefused. unfold Host.modifier_move_up.
  by rewrite try_move_up_middle, Hrefused.
Qed.

Lemma iter_fixed {A} (f : A -> A) (x : A) (k : nat) :
  f x = x -> Nat.iter k f x = x.
Proof. intros Hx. induction k as [|k IH]; simpl; [done|]. by rewrite IH. Qed.

(** Stopping at the first swap that moves nothing, or asking again and
    again, comes to the same. *)
Lemma move_while_iter (n : string) (k : nat) mods :
  Host.move_while (Host.try_move_up refuses n) k mods
  = Nat.iter k (Host.modifier_move_up refuses n) mods.
Proof.
  revert mods. induction k as [|k IH]; intros mods; [done|].
  rewrite Nat.iter_succ_r. cbn [Host.move_while].
  unfold Host.modifier_move_up at 2.
  destruct (Host.try_move_up refuses n mods) as [mods'|] eqn:Hstep; simpl.
  - apply IH.
  - symmetry. apply iter_fixed. unfold Host.modifier_move_up. by rewrite Hstep.
Qed.

(** As many swaps as there are entries in front: the entry moves up to
    the head, or to just below the first entry the host does not let it
    pass; the others keep their order. *)
Lemma modifier_move_up_iter_split m pre post :
  name m ∉ name <$> pre ->
  exists above below,
    pre = above ++ below /\
    Nat.iter (length pre) (Host.modifier_move_up refuses (name m)) (pre ++ m :: post)
    = above ++ m :: below ++ post /\
    Forall (fun p => refuses p m = false) below /\
    (above = [] \/ exists p, last above = Some p /\ refuses p m = true).
Proof.
  revert post. induction pre as [|p pre IH] using rev_ind; intros post Hnotin.
  { exists [], []. repeat split; [constructor | by left]. }
  rewrite fmap_app, not_elem_of_app in Hnotin. destruct Hnotin as [Hpre Hp].
  simpl in Hp. rewrite not_elem_of_cons in Hp. destruct Hp as [Hp _].
  rewrite length_app. simpl. rewrite Nat.add_1_r, Nat.iter_succ_r.
  rewrite <- (assoc_L (++)). simpl.
  destruct (refuses p m) eqn:Hswap.
  - rewrite modifier_move_up_refused by done.
    exists (pre ++ [p]), []. split; [by rewrite app_nil_r|]. split.
    + rewrite iter_fixed; [by rewrite <- (assoc_L (++))|].
      by apply modifier_move_up_refused.
    + split; [constructor|]. right. exists p. by rewrite last_snoc.
  - rewrite modifier_move_up_middle by done.
    destruct (IH (p :: post) Hpre) as (above & below & -> & Hiter & Hbelow & Habove).
    exists above, (below ++ [p]). split; [by rewrite (assoc_L (++))|]. split.
    + rewrite Hiter. by rewrite <- (assoc_L (++)).
    + split; [|done]. apply Forall_app. split; [done|]. by repeat constructor.
Qed.

(** With no swap refused the entry reaches the head. *)
Lemma modifier_move_up_iter m pre post :
  name m ∉ name <$> pre ->
  Forall (fun p => refuses p m = false) pre ->
  Nat.iter (length pre) (Host.modifier_move_up refuses (name m)) (pre ++ m :: post)
  = m :: pre ++ post.
Proof.
  intros Hnotin Hfree.
  destruct (modifier_move_up_iter_split m pre post Hnotin)
    as (above & below & -> & -> & _ & [-> | (p & Hlast & Hrefused)]); [done|].
  apply Forall_app in Hfree as [Habove _].
  apply last_Some in Hlast as [above' ->].
  apply Forall_app in Habove as [_ Hp]. apply Forall_inv in Hp.
  simpl in Hp. exfalso. congruence.
Qed.

(** The move-to-index primitive with index 0 is the swap asked for as
    many times as there are entries in front. *)
Lemma modifier_move_to_index_is_iter m pre post :
  name m ∉ name <$> pre ->
  Host.modifier_move_to_index refuses (name m) 0 (pre ++ m :: post)
  = Nat.iter (length pre) (Host.modifier_move_up refuses (name m)) (pre ++ m :: post).
Proof.
  intros Hpre. unfold Host.modifier_move_to_index.
  rewrite (find_middle _ _ _ Hpre).
  replace (Z.of_nat (length pre) <? 0) with false by (symmetry; apply Z.ltb_ge; lia).
  replace (Z.of_nat (length (pre ++ m :: post)) <=? 0) with false.
  2:{ symmetry. apply Z.leb_gt. rewrite length_app. simpl. lia. }
  simpl.
  replace (Z.to_nat (Z.of_nat (length pre) - 0)) with (length pre) by lia.
  apply move_while_iter.
Qed.

Lemma modifier_move_to_index_top m pre post :
  name m ∉ name <$> pre ->
  Forall (fun p => refuses p m = false) pre ->
  Host.modifier_move_to_index refuses (name m) 0 (pre ++ m :: post)
  = m :: pre ++ post.
Proof.
  intros Hpre Hfree.
  by rewrite modifier_move_to_index_is_iter, modifier_move_up_iter.
Qed.

(** A sequence with unique names, split at position [i]. *)
Lemma split_at mods (i : nat) m :
  NoDup (name <$> mods) -> mods !! i = Some m ->
  exists pre post, mods = (pre ++ m :: post) /\ length pre = i /\
                   (name m ∉ name <$> pre) /\ delete i mods = pre ++ post.
Proof.
  intros Hnd Hi. exists (take i mods), (drop (S i) mods).
  pose proof (lookup_lt_Some _ _ _ Hi) as Hlt.
  assert (mods = take i mods ++ m :: drop (S i) mods) as Hsplit
    by (by rewrite take_drop_middle).
  split; [done|]. split; [rewrite length_take; lia|]. split.
  - rewrite Hsplit, fmap_app, fmap_cons in Hnd.
    apply NoDup_app in Hnd as (_ & Hdisj & _).
    intros Hin. apply (Hdisj _ Hin). left.
  - apply delete_take_drop.
Qed.

End HostFacts.

(** ** The list-reorder controller *)

Section ContextFacts.

Implicit Types (c : context) (f g : object -> object).

Lemma get_on_ml_active_object f c :
  get_ml_active_object (on_ml_active_object f c) = f (get_ml_active_object c).
Proof. by destruct c as [cob [pin| ] area ver v]. Qed.

Lemma on_ml_active_object_iter f c (k : nat) :
  Nat.iter k (on_ml_active_object f) c = on_ml_active_object (Nat.iter k f) c.
Proof.
  induction k as [|k IH]; simpl.
  - unfold on_ml_active_object, on_context_object.
    by destruct c as [cob [pin| ] area ver v].
  - rewrite IH. unfold on_ml_active_object, on_context_object.
    by destruct (pinned_object c).
Qed.

Lemma set_modifiers_iter (g : list modifier -> list modifier) (ob : object) (k : nat) :
  Nat.iter k (fun ob => set_modifiers (g (modifiers ob)) ob) ob
  = set_modifiers (Nat.iter k g (modifiers ob)) ob.
Proof.
  induction k as [|k IH]; simpl; [by destruct ob|]. by rewrite IH.
Qed.

Lemma on_ml_active_object_ext f g c :
  f (get_ml_active_object c) = g (get_ml_active_object c) ->
  on_ml_active_object f c = on_ml_active_object g c.
Proof.
  destruct c as [cob [pin| ] area ver v];
    unfold on_ml_active_object, on_context_object, get_ml_active_object;
    simpl; by intros ->.
Qed.

End ContextFacts.

Lemma modifier_move_up_swap (refuses : modifier -> modifier -> bool)
    (mods : list modifier) (i : nat) (m p : modifier) :
  NoDup (name <$> mods) ->
  mods !! S i = Some m -> mods !! i = Some p ->
  refuses p m = false ->
  Host.modifier_move_up refuses (name m) mods = <[i := m]> (<[S i := p]> mods).
Proof.
  intros Hnd Hm Hp Hswap. unfold Host.modifier_move_up, Host.try_move_up.
  rewrite (find_lookup _ _ _ Hnd Hm).
  replace (0 <? Z.of_nat (S i)) with true by (symmetry; apply Z.ltb_lt; lia).
  replace (Z.to_nat (Z.of_nat (S i) - 1)) with i by lia.
  by rewrite Nat2Z.id, Hm, Hp, Hswap.
Qed.

Lemma modifier_move_up_stays (refuses : modifier -> modifier -> bool)
    (mods : list modifier) (i : nat) (m p : modifier) :
  NoDup (name <$> mods) ->
  mods !! S i = Some m -> mods !! i = Some p ->
  refuses p m = true ->
  Host.modifier_move_up refuses (name m) mods = mods.
Proof.
  intros Hnd Hm Hp Hrefused. unfold Host.modifier_move_up, Host.try_move_up.
  rewrite (find_lookup _ _ _ Hnd Hm).
  replace (0 <? Z.of_nat (S i)) with true by (symmetry; apply Z.ltb_lt; lia).
  replace (Z.to_nat (Z.of_nat (S i) - 1)) with i by lia.
  by rewrite Nat2Z.id, Hm, Hp, Hrefused.
Qed.

Module MoveUpFacts.

Import OBJECT_OT_ml_modifier_move_up.

Lemma modifiers_set_ml_modifier_active_index (i : Z) (ob : object) :
  modifiers (set_ml_modifier_active_index i ob) = modifiers ob.
Proof. reflexivity. Qed.

Lemma modifiers_set_modifiers (mods : list modifier) (ob : object) :
  modifiers (set_modifiers mods ob) = mods.
Proof. reflexivity. Qed.

Lemma index_set_ml_modifier_active_index (i : Z) (ob : object) :
  ml_modifier_active_index (set_ml_modifier_active_index i ob) = i.
Proof. reflexivity. Qed.

Section Rule.

Variable refuses : modifier -> modifier -> bool.

(** What the single step leaves behind, when the active index is valid. *)
Lemma execute_single_step_state (c : context) (i : nat) (m : modifier) :
  ml_modifier_active_index (get_ml_active_object c) = Z.of_nat i ->
  modifiers (get_ml_active_object c) !! i = Some m ->
  execute refuses c false
  = Py.Ok (on_ml_active_object
             (set_ml_modifier_active_index (Py.np_clip (Z.of_nat i - 1) 0 999))
             (ops_modifier_move_up refuses (name m) c),
           FINISHED).
Proof.
  intros Hidx Hi. unfold execute.
  rewrite Hidx, (index_in_range _ _ _ Hi). reflexivity.
Qed.

Lemma ml_active_after_single_step (c : context) (n : string) (i : Z) :
  get_ml_active_object
    (on_ml_active_object (set_ml_modifier_active_index i)
       (ops_modifier_move_up refuses n c))
  = set_ml_modifier_active_index i
      (set_modifiers
         (Host.modifier_move_up refuses n (modifiers (get_ml_active_object c)))
         (get_ml_active_object c)).
Proof.
  unfold ops_modifier_move_up. by rewrite !get_on_ml_active_object.
Qed.

(** C4, as the code has it. With the active entry at a valid index
    [i > 0] and a swap with its predecessor that the host does not
    refuse, the single step (no shift) swaps the two: the entry ends at
    [i - 1], the predecessor at [i], every other entry stays where it was
    and the length is unchanged; up to [i = 1000] the active index
    becomes [i - 1]. *)
Theorem execute_single_step (c : context) (i : nat) (m : modifier) :
  let ob := get_ml_active_object c in
  NoDup (name <$> modifiers ob) ->
  ml_modifier_active_index ob = Z.of_nat i ->
  modifiers ob !! i = Some m ->
  (0 < i)%nat ->
  (forall p, modifiers ob !! (i - 1)%nat = Some p -> refuses p m = false) ->
  exists c',
    execute refuses c false = Py.Ok (c', FINISHED) /\
    let ob' := get_ml_active_object c' in
    modifiers ob' !! (i - 1)%nat = Some m /\
    modifiers ob' !! i = modifiers ob !! (i - 1)%nat /\
    (forall j : nat, j <> i -> j <> (i - 1)%nat ->
                     modifiers ob' !! j = modifiers ob !! j) /\
    length (modifiers ob') = length (modifiers ob) /\
    ((i <= 1000)%nat -> ml_modifier_active_index ob' = Z.of_nat i - 1).
Proof.
  intros ob Hnd Hidx Hi Hpos Hswap.
  destruct i as [|k]; [lia|].
  pose proof (lookup_lt_Some _ _ _ Hi) as Hlen.
  destruct (lookup_lt_is_Some_2 (modifiers ob) k) as [p Hp]; [lia|].
  replace (S k - 1)%nat with k in Hswap by lia.
  eexists. split.
  - by apply execute_single_step_state.
  - cbv zeta. replace (S k - 1)%nat with k by lia.
    rewrite ml_active_after_single_step. fold ob. simpl.
    rewrite (modifier_move_up_swap _ _ _ _ _ Hnd Hi Hp (Hswap p Hp)).
    split; [|split; [|split; [|split]]].
    + apply list_lookup_insert_eq. rewrite length_insert. lia.
    + rewrite list_lookup_insert_ne by lia. rewrite Hp.
      by apply list_lookup_insert_eq.
    + intros j Hj Hj'. by rewrite !list_lookup_insert_ne.
    + by rewrite !length_insert.
    + intros Hle. unfold Py.np_clip. lia.
Qed.

(** The single step when the host refuses the swap: the sequence stays as
    it is and the active index is moved all the same. *)
Lemma execute_single_step_refused (c : context) (i : nat) (m p : modifier) :
  let ob := get_ml_active_object c in
  NoDup (name <$> modifiers ob) ->
  ml_modifier_active_index ob = Z.of_nat (S i) ->
  modifiers ob !! S i = Some m ->
  modifiers ob !! i = Some p ->
  refuses p m = true ->
  exists c',
    execute refuses c false = Py.Ok (c', FINISHED) /\
    modifiers (get_ml_active_object c') = modifiers ob /\
    ml_modifier_active_index (get_ml_active_object c')
    = Py.np_clip (Z.of_nat i) 0 999.
Proof.
  intros ob Hnd Hidx Hi Hp Hrefused.
  eexists. split; [by apply execute_single_step_state|].
  rewrite ml_active_after_single_step. fold ob. simpl.
  rewrite (modifier_move_up_stays _ _ _ _ _ Hnd Hi Hp Hrefused).
  split; [done|]. f_equal. lia.
Qed.

(** The state jump-to-top leaves below 2.90, for a valid active index. *)
Lemma execute_fallback_state (c : context) (i : nat) (m : modifier) :
  let ob := get_ml_active_object c in
  ml_modifier_active_index ob = Z.of_nat i ->
  modifiers ob !! i = Some m ->
  Qle_bool (290 # 100) (version_major_point_minor c) = false ->
  execute refuses c true
  = Py.Ok (on_ml_active_object
             (fun ob => set_ml_modifier_active_index 0
                          (set_modifiers
                             (Nat.iter i (Host.modifier_move_up refuses (name m))
                                (modifiers ob)) ob)) c,
           FINISHED).
Proof.
  intros ob Hidx Hi Hold.
  unfold execute. fold ob. rewrite Hidx, (index_in_range _ _ _ Hi). simpl.
  rewrite Hold, Nat2Z.id. do 2 f_equal.
  unfold ops_modifier_move_up. rewrite on_ml_active_object_iter.
  destruct c as [cob [pin| ] area ver v]; simpl;
    unfold on_ml_active_object, on_context_object; simpl;
    by rewrite set_modifiers_iter.
Qed.

(** C2, as the code has it. With the active entry at a valid index
    [i > 0] and a host below 2.90, jump-to-top (shift) by repeated single
    steps ends in the state that the move-to-index primitive with index 0
    gives on the add-on's object, with the active index 0. The entry
    moves up past the entries the host lets it pass and the others keep
    their order; when the host refuses none of the swaps on the way, the
    entry is first. *)
Theorem execute_jump_to_top_fallback (c : context) (i : nat) (m : modifier) :
  let ob := get_ml_active_object c in
  NoDup (name <$> modifiers ob) ->
  ml_modifier_active_index ob = Z.of_nat i ->
  modifiers ob !! i = Some m ->
  (0 < i)%nat ->
  Qle_bool (290 # 100) (version_major_point_minor c) = false ->
  exists c',
    execute refuses c true = Py.Ok (c', FINISHED) /\
    c' = on_ml_active_object
           (fun ob => set_ml_modifier_active_index 0
                        (set_modifiers
                           (Host.modifier_move_to_index refuses (name m) 0
                              (modifiers ob)) ob)) c /\
    let ob' := get_ml_active_object c' in
    ml_modifier_active_index ob' = 0 /\
    length (modifiers ob') = length (modifiers ob) /\
    (exists above below,
        take i (modifiers ob) = above ++ below /\
        modifiers ob' = above ++ m :: below ++ drop (S i) (modifiers ob) /\
        Forall (fun p => refuses p m = false) below /\
        (above = [] \/ exists p, last above = Some p /\ refuses p m = true)) /\
    (Forall (fun p => refuses p m = false) (take i (modifiers ob)) ->
     modifiers ob' = m :: delete i (modifiers ob)).
Proof.
  intros ob Hnd Hidx Hi Hpos Hold.
  destruct (split_at _ _ _ Hnd Hi) as (pre & post & Hsplit & Hlen & Hpre & Hdel).
  assert (take i (modifiers ob) = pre) as Htake.
  { rewrite Hsplit, <- Hlen. apply take_app_length. }
  assert (drop (S i) (modifiers ob) = post) as Hdrop.
  { rewrite Hsplit, <- Hlen, cons_middle, (assoc_L (++)).
    replace (S (length pre)) with (length (pre ++ [m]))
      by (rewrite length_app; simpl; lia).
    apply drop_app_length. }
  assert (Host.modifier_move_to_index refuses (name m) 0 (modifiers ob)
          = Nat.iter i (Host.modifier_move_up refuses (name m)) (modifiers ob))
    as Hsame.
  { rewrite Hsplit, <- Hlen. by apply modifier_move_to_index_is_iter. }
  destruct (modifier_move_up_iter_split refuses m pre post Hpre)
    as (above & below & Hpre_split & Hiter & Hbelow & Habove).
  rewrite Hlen, <- Hsplit in Hiter.
  eexists. split; [by apply execute_fallback_state|]. split.
  - apply on_ml_active_object_ext. fold ob. by rewrite Hsame.
  - cbv zeta. rewrite get_on_ml_active_object. fold ob. simpl.
    rewrite Hiter, Htake, Hdrop. split; [done|]. split.
    + rewrite Hsplit, Hpre_split, !length_app. simpl. rewrite !length_app. lia.
    + split; [by exists above, below|].
      intros Hfree. rewrite <- Hiter, Hdel, Hsplit, <- Hlen.
      by apply modifier_move_up_iter.
Qed.

(** On a host from 2.90 on, the same end state is reached by one call of
    the primitive, provided no object is pinned: the call is made without
    the override and therefore works on [context.object]. *)
Lemma execute_jump_to_top_atomic (c : context) (i : nat) (m : modifier) :
  let ob := get_ml_active_object c in
  pinned_object c = None ->
  ml_modifier_active_index ob = Z.of_nat i ->
  modifiers ob !! i = Some m ->
  Qle_bool (290 # 100) (version_major_point_minor c) = true ->
  execute refuses c true =
    Py.Ok (on_ml_active_object
             (fun ob => set_ml_modifier_active_index 0
                          (set_modifiers
                             (Host.modifier_move_to_index refuses (name m) 0
                                (modifiers ob)) ob)) c,
           FINISHED).
Proof.
  intros ob Hpin Hidx Hi Hnew.
  unfold execute. fold ob. rewrite Hidx, (index_in_range _ _ _ Hi). simpl.
  rewrite Hnew. unfold ops_modifier_move_to_index, on_ml_active_object.
  destruct c as [cob pin area ver v]. simpl in *. by subst pin.
Qed.

End Rule.

End MoveUpFacts.

Section PollFacts.

Import OBJECT_OT_ml_modifier_move_up.

Variable refuses : modifier -> modifier -> bool.
Variable is_modifier_local : object -> modifier -> bool.

(** C6. Move-up is refused ([poll] returns False) exactly when the
    sequence is empty, or the active index is 0, or the active entry is
    not local; and a refused command changes neither the sequence nor the
    active index and raises nothing. *)
Theorem poll_refuses (c : context) (shift : bool) :
  let ob := get_ml_active_object c in
  (poll is_modifier_local c = Py.Ok false <->
   modifiers ob = [] \/
   ml_modifier_active_index ob = 0 \/
   exists m, Py.index (modifiers ob) (ml_modifier_active_index ob) = Py.Ok m /\
             is_modifier_local ob m = false) /\
  (poll is_modifier_local c = Py.Ok false ->
   call refuses is_modifier_local c shift = Py.Ok c).
Proof.
  intros ob. split.
  - unfold poll. fold ob.
    case_bool_decide as Hempty; [tauto|].
    destruct (ml_modifier_active_index ob =? 0) eqn:Hzero.
    { apply Z.eqb_eq in Hzero. tauto. }
    apply Z.eqb_neq in Hzero.
    destruct (Py.index (modifiers ob) (ml_modifier_active_index ob)) as [m|e] eqn:Hm;
      simpl.
    + split.
      * intros [= Hlocal]. right. right. by exists m.
      * intros [? | [? | (m' & [= <-] & Hlocal)]]; [done | done | by rewrite Hlocal].
    + split; [done|]. by intros [? | [? | (m' & [=] & _)]].
  - intros Hrefused. unfold call. by rewrite Hrefused.
Qed.

End PollFacts.

(** ** Remove all modifiers *)

Module RemoveAllFacts.

Import OBJECT_OT_ml_remove_all_modifiers.

Lemma iter_next_begin (m : modifier) (mods : list modifier) :
  Host.iter_next (m :: mods) (Host.iter_begin (m :: mods))
  = Some (m, Host.iter_begin mods).
Proof.
  unfold Host.iter_next, Host.iter_begin. simpl.
  rewrite decide_True by done. simpl. by rewrite head_lookup.
Qed.

Lemma remove_first (m : modifier) (mods : list modifier) :
  Host.remove m (m :: mods) = mods.
Proof. unfold Host.remove. simpl. by rewrite decide_True. Qed.

Lemma remove_loop_step (fuel : nat) (cur : Host.cursor) (mods : list modifier)
    (flag : bool) :
  remove_loop (S fuel) cur mods flag =
    match Host.iter_next mods cur with
    | None => Some (mods, flag)
    | Some (m, cur') => remove_loop fuel cur' (Host.remove m mods) true
    end.
Proof. reflexivity. Qed.

(** The inner loop runs until the iterator is exhausted and leaves the
    sequence empty. *)
Lemma remove_loop_all (mods : list modifier) (flag : bool) :
  remove_loop (S (length mods)) (Host.iter_begin mods) mods flag
  = Some ([], if mods is [] then flag else true).
Proof.
  revert flag. induction mods as [|m mods IH]; intros flag; [done|].
  rewrite remove_loop_step, iter_next_begin, remove_first.
  rewrite IH. by destruct mods.
Qed.

Lemma remove_from_each_all (obs : list object) (flag : bool) :
  remove_from_each obs flag
  = Some (set_modifiers [] <$> obs, flag || existsb has_modifiers obs).
Proof.
  revert flag. induction obs as [|ob obs IH]; intros flag.
  - simpl. by rewrite orb_false_r.
  - cbn [remove_from_each]. rewrite remove_loop_all.
    cbn [mbind option_bind fst snd]. rewrite IH.
    cbn [mbind option_bind fst snd fmap list_fmap existsb]. f_equal. f_equal.
    unfold has_modifiers. destruct (modifiers ob); simpl; [done|].
    by rewrite orb_true_r.
Qed.

Lemma existsb_has_modifiers_emptied (obs : list object) :
  existsb has_modifiers (set_modifiers [] <$> obs) = false.
Proof. induction obs as [|ob obs IH]; [done|]. rewrite fmap_cons. simpl. apply IH. Qed.

Lemma set_modifiers_idemp (obs : list object) :
  set_modifiers [] <$> (set_modifiers [] <$> obs) = set_modifiers [] <$> obs.
Proof. rewrite <- list_fmap_compose. by apply list_fmap_ext. Qed.

(** C3. Removing all modifiers twice is removing them once. The first
    run returns, and leaves every selected object with an empty
    sequence; the second run on that selection returns CANCELLED, changes
    nothing and only reports: "No modifiers to remove", or "No selection"
    when nothing is selected. *)
Theorem execute_twice (obs : list object) :
  exists reports result,
    execute obs = Some (set_modifiers [] <$> obs, reports, result) /\
    Forall (fun ob => modifiers ob = []) (set_modifiers [] <$> obs) /\
    execute (set_modifiers [] <$> obs)
    = Some (set_modifiers [] <$> obs,
            [(INFO, if bool_decide (obs = []) then "No selection"
                    else "No modifiers to remove")],
            CANCELLED).
Proof.
  assert (Forall (fun ob => modifiers ob = []) (set_modifiers [] <$> obs)) as Hempty.
  { apply Forall_fmap, Forall_true. done. }
  destruct obs as [|ob obs].
  - by exists [(INFO, "No selection")], CANCELLED.
  - unfold execute.
    rewrite !bool_decide_eq_false_2 by done.
    rewrite !remove_from_each_all, set_modifiers_idemp. cbn [mbind option_bind].
    rewrite existsb_has_modifiers_emptied.
    destruct (false || existsb has_modifiers (ob :: obs)); simpl; eauto.
Qed.

End RemoveAllFacts.

(** ** A stale active index *)

Section StaleIndex.

Variable get_gizmo_object_from_modifier : modifier -> option object.
Variable modifiers_ui_body : context -> Py.result layout.

(** [modifiers_ui] shows the prompt and the reset operator, and nothing
    else, when the active index is past the end of a non-empty
    sequence. *)
Lemma modifiers_ui_stale_index (c : context) :
  let ob := get_ml_active_object c in
  modifiers ob <> [] ->
  Z.of_nat (length (modifiers ob)) <= ml_modifier_active_index ob ->
  modifiers_ui modifiers_ui_body c
  = Py.Ok [label "The active modifier index has gotten out of range..." None;
           operator "object.ml_reset_modifier_active_index" None None true false []].
Proof.
  intros ob Hne Hstale. unfold modifiers_ui. fold ob.
  rewrite bool_decide_eq_false_2 by done. simpl.
  by rewrite (proj2 (Z.ltb_lt _ _)) by lia.
Qed.

(** The gizmo settings panel indexes the sequence with the same index
    unchecked. *)
Lemma gizmo_draw_stale_index (c : context) :
  let ob := get_ml_active_object c in
  modifiers ob <> [] ->
  Z.of_nat (length (modifiers ob)) <= ml_modifier_active_index ob ->
  OBJECT_PT_ml_gizmo_object_settings.draw get_gizmo_object_from_modifier c
  = Py.Raise Py.IndexError.
Proof.
  intros ob Hne Hstale. unfold OBJECT_PT_ml_gizmo_object_settings.draw. fold ob.
  rewrite bool_decide_eq_false_2 by done.
  by rewrite index_past_end.
Qed.

(** C7, at one modifier and active index 1: [modifiers_ui] draws the
    prompt, the gizmo settings panel raises IndexError. *)
Theorem gizmo_draw_one_modifier_index_1 :
  let c := Sample.scene (Sample.mesh [Sample.subsurf] 1) "VIEW_3D" 91 in
  modifiers_ui modifiers_ui_body c
  = Py.Ok [label "The active modifier index has gotten out of range..." None;
           operator "object.ml_reset_modifier_active_index" None None true false []] /\
  OBJECT_PT_ml_gizmo_object_settings.draw get_gizmo_object_from_modifier c
  = Py.Raise Py.IndexError.
Proof. split; [by apply modifiers_ui_stale_index | by apply gizmo_draw_stale_index]. Qed.

End StaleIndex.

(** ** The theorems at sample scenes *)

Module AtSamples.

Import Sample.

(** Against C1 as stated: in the sequence [Bevel; Subdivision], Bevel
    has show_in_editmode on and is not cage-capable, Subdivision is
    cage-capable, and the row of Subdivision holds no show_on_cage toggle
    in either display mode, active or not. *)
Lemma show_on_cage_button_not_drawn :
  let mods := [bevel; subsurf] in
  let c := scene (mesh mods 1) "PROPERTIES" 83 in
  (mods !! 1%nat = Some subsurf /\ type subsurf ∈ SUPPORT_SHOW_ON_CAGE /\
   mods !! 0%nat = Some bevel /\ show_in_editmode bevel = true /\
   type bevel ∉ SUPPORT_SHOW_ON_CAGE) /\
  forall use_in_list : bool,
    show_on_cage_button SUPPORT_SHOW_ON_CAGE pcoll (mesh mods 1) subsurf use_in_list
    = (false, []) /\
    existsb (shows (name subsurf) "show_on_cage")
      (modifier_visibility_buttons DONT_SUPPORT_SHOW_IN_EDITMODE
         SUPPORT_USE_APPLY_ON_SPLINE SUPPORT_SHOW_ON_CAGE pcoll c subsurf use_in_list)
    = false.
Proof.
  split.
  - repeat split; try done; unfold SUPPORT_SHOW_ON_CAGE; simpl; set_solver.
  - intros [|]; split; by vm_compute.
Qed.

Lemma arrays_names_unique (n : nat) : NoDup (name <$> arrays n).
Proof.
  unfold arrays. rewrite <- list_fmap_compose.
  apply NoDup_fmap_2_strong; [|apply NoDup_seq].
  intros j k _ _ Heq. simpl in Heq. unfold array_name in Heq.
  by apply (inj (String.app "Array.")), (inj pretty) in Heq.
Qed.

Lemma arrays_lookup (n k : nat) : (k < n)%nat -> arrays n !! k = Some (array k).
Proof.
  intros Hlt. unfold arrays. by rewrite list_lookup_fmap, lookup_seq_lt.
Qed.

Lemma arrays_length (n : nat) : length (arrays n) = n.
Proof. unfold arrays. by rewrite length_fmap, length_seq. Qed.

Lemma names_unique (mods : list modifier) :
  bool_decide (NoDup (name <$> mods)) = true -> NoDup (name <$> mods).
Proof. apply bool_decide_eq_true_1. Qed.

Lemma in_table (t : string) (table : gset string) :
  bool_decide (t ∈ table) = true -> t ∈ table.
Proof. apply bool_decide_eq_true_1. Qed.

Lemma not_in_table (t : string) (table : gset string) :
  bool_decide (t ∈ table) = false -> t ∉ table.
Proof. apply bool_decide_eq_false_1. Qed.

Lemma show_on_cage_button_blocked_witness :
  show_on_cage_button SUPPORT_SHOW_ON_CAGE pcoll (mesh [bevel; subsurf] 1) subsurf false
  = (false, []).
Proof.
  refine (proj1 (show_on_cage_button_blocked DONT_SUPPORT_SHOW_IN_EDITMODE
                   SUPPORT_USE_APPLY_ON_SPLINE SUPPORT_SHOW_ON_CAGE pcoll
                   (scene (mesh [bevel; subsurf] 1) "PROPERTIES" 83)
                   1 0 subsurf bevel false _ _ _ _ _ _ _ _ _)).
  - reflexivity.
  - apply names_unique. vm_compute. reflexivity.
  - reflexivity.
  - apply in_table. vm_compute. reflexivity.
  - lia.
  - lia.
  - reflexivity.
  - reflexivity.
  - apply not_in_table. vm_compute. reflexivity.
Defined.

(** Against C5 as stated: on a curve object with the sequence
    [Subdivision; Mirror], Subdivision is cage-capable, nothing is before
    it and Mirror after it has show_viewport, show_in_editmode and
    show_on_cage on; the row of Subdivision holds no show_on_cage toggle
    in either display mode. *)
Lemma show_on_cage_button_not_drawn_on_curve :
  let mods := [subsurf; mirror] in
  let c := scene (curve mods 0) "PROPERTIES" 83 in
  (mods !! 0%nat = Some subsurf /\ type subsurf ∈ SUPPORT_SHOW_ON_CAGE /\
   mods !! 1%nat = Some mirror /\ show_viewport mirror = true /\
   show_in_editmode mirror = true /\ show_on_cage mirror = true) /\
  forall use_in_list : bool,
    existsb (shows (name subsurf) "show_on_cage")
      (modifier_visibility_buttons DONT_SUPPORT_SHOW_IN_EDITMODE
         SUPPORT_USE_APPLY_ON_SPLINE SUPPORT_SHOW_ON_CAGE pcoll c subsurf use_in_list)
    = false.
Proof.
  split.
  - repeat split; try done; unfold SUPPORT_SHOW_ON_CAGE; simpl; set_solver.
  - intros [|]; by vm_compute.
Qed.

Lemma show_on_cage_button_owned_later_witness :
  exists a toggles,
    modifier_visibility_buttons DONT_SUPPORT_SHOW_IN_EDITMODE
      SUPPORT_USE_APPLY_ON_SPLINE SUPPORT_SHOW_ON_CAGE pcoll
      (scene (mesh [subsurf; mirror] 0) "PROPERTIES" 83) subsurf false
    = [container Row a
         (toggles ++
          [container Row (set_active false (fresh true))
             [prop "Subdivision" "show_on_cage" ""
                (Some (pcoll "SHOW_ON_CAGE_OFF")) true]])].
Proof.
  refine (proj2 (proj2 (show_on_cage_button_owned_later DONT_SUPPORT_SHOW_IN_EDITMODE
                          SUPPORT_USE_APPLY_ON_SPLINE SUPPORT_SHOW_ON_CAGE pcoll
                          (scene (mesh [subsurf; mirror] 0) "PROPERTIES" 83)
                          0 subsurf false _ _ _ _ _ _))).
  - reflexivity.
  - apply names_unique. vm_compute. reflexivity.
  - reflexivity.
  - apply in_table. vm_compute. reflexivity.
  - intros j m' Hj. lia.
  - exists 1%nat, mirror. repeat split. lia.
Defined.

(** Against C8 as stated: Subdivision with show_viewport off, in the
    detail panel. The row of the toggle is still enabled; it is drawn
    not active. *)
Lemma show_in_editmode_button_stays_enabled :
  let m := Modifier "Subdivision" "SUBSURF" false true true false false in
  (type m ∉ DONT_SUPPORT_SHOW_IN_EDITMODE) /\ show_viewport m = false /\
  exists a,
    show_in_editmode_button DONT_SUPPORT_SHOW_IN_EDITMODE pcoll m false
    = [container Row a
         [prop "Subdivision" "show_in_editmode" ""
            (Some (pcoll "SHOW_IN_EDITMODE_ON")) true]] /\
    enabled a = true /\ active a = false.
Proof.
  intros m. split; [apply not_in_table; by vm_compute|]. split; [done|].
  eexists. split; [by vm_compute|]. done.
Qed.

(** Target at index 110 of 120: the first loop runs over positions 0 to
    98. *)
Lemma scanned_before_positions_witness :
  scanned_before (arrays 120) (find (name (array 110)) (arrays 120))
  = take 99 (arrays 120).
Proof.
  refine (proj1 (proj1 (scanned_before_positions SUPPORT_SHOW_ON_CAGE pcoll
                          (mesh (arrays 120) 110) 110 (array 110) false _ _ _))).
  - apply arrays_names_unique.
  - apply arrays_lookup. lia.
  - apply in_table. vm_compute. reflexivity.
Defined.

(** Against C9 as stated: the same object, sequence, target and display
    mode, drawn once in the properties editor and once in the 3D
    viewport, give two different rows. *)
Lemma modifier_visibility_buttons_reads_area :
  let c1 := scene (mesh [cloth] 0) "PROPERTIES" 83 in
  let c2 := scene (mesh [cloth] 0) "VIEW_3D" 83 in
  get_ml_active_object c1 = get_ml_active_object c2 /\
  modifier_visibility_buttons DONT_SUPPORT_SHOW_IN_EDITMODE
    SUPPORT_USE_APPLY_ON_SPLINE SUPPORT_SHOW_ON_CAGE pcoll c1 cloth false
  <> modifier_visibility_buttons DONT_SUPPORT_SHOW_IN_EDITMODE
       SUPPORT_USE_APPLY_ON_SPLINE SUPPORT_SHOW_ON_CAGE pcoll c2 cloth false.
Proof. split; [reflexivity|]. vm_compute. discriminate. Qed.

(** Two redraws that differ in the active index, in what is pinned and
    in the version string, and in nothing the resolver reads. *)
Lemma modifier_visibility_buttons_inputs_witness :
  modifier_visibility_buttons DONT_SUPPORT_SHOW_IN_EDITMODE
    SUPPORT_USE_APPLY_ON_SPLINE SUPPORT_SHOW_ON_CAGE pcoll
    (scene (mesh [bevel; subsurf] 0) "PROPERTIES" 83) subsurf false
  = modifier_visibility_buttons DONT_SUPPORT_SHOW_IN_EDITMODE
      SUPPORT_USE_APPLY_ON_SPLINE SUPPORT_SHOW_ON_CAGE pcoll
      {| context_object := mesh [] 7;
         pinned_object := Some (mesh [bevel; subsurf] 1);
         area_type := "PROPERTIES"; app_version := (2, 83);
         version_major_point_minor := 2 # 1 |}
      subsurf false.
Proof.
  apply modifier_visibility_buttons_inputs; reflexivity.
Defined.

Lemma refuses_array (k : nat) (m : modifier) : refuses (array k) m = false.
Proof.
  unfold refuses. apply andb_false_iff. left.
  apply bool_decide_eq_false_2. unfold REQUIRES_ORIGINAL_DATA. simpl. set_solver.
Qed.

(** Against C4 as stated: in the sequence [Multires; Bevel] with Bevel
    active (index 1), the host refuses the swap. After the single step
    Bevel is still at index 1, not at index 0, and the active index is 0. *)
Lemma execute_single_step_host_refuses :
  let mods := [multires; bevel] in
  let c := scene (mesh mods 1) "PROPERTIES" 83 in
  NoDup (name <$> mods) /\ mods !! 1%nat = Some bevel /\
  refuses multires bevel = true /\
  match OBJECT_OT_ml_modifier_move_up.execute refuses c false with
  | Py.Ok (c', _) =>
      let ob' := get_ml_active_object c' in
      modifiers ob' = [multires; bevel] /\
      modifiers ob' !! 0%nat <> Some bevel /\
      ml_modifier_active_index ob' = 0
  | Py.Raise _ => False
  end.
Proof.
  intros mods c.
  assert (NoDup (name <$> mods)) as Hnd by (apply names_unique; by vm_compute).
  assert (refuses multires bevel = true) as Hrefused by (by vm_compute).
  split; [done|]. split; [done|]. split; [done|].
  destruct (MoveUpFacts.execute_single_step_refused refuses c 0 bevel multires)
    as (c' & -> & Hmods & Hidx); try done.
  cbv zeta. rewrite Hmods, Hidx. repeat split. discriminate.
Qed.

(** Also against C4 as stated: 1002 modifiers, the active one last (index
    1001). After the single step the entry is at index 1000 and the
    active index is 999, not 1001 - 1 clamped to [0, 1002 - 1]. *)
Lemma execute_single_step_index_999 :
  let mods := arrays 1002 in
  let c := scene (mesh mods 1001) "PROPERTIES" 83 in
  NoDup (name <$> mods) /\ mods !! 1001%nat = Some (array 1001) /\
  match OBJECT_OT_ml_modifier_move_up.execute refuses c false with
  | Py.Ok (c', _) =>
      let ob' := get_ml_active_object c' in
      modifiers ob' !! 1000%nat = Some (array 1001) /\
      ml_modifier_active_index ob' = 999 /\
      ml_modifier_active_index ob'
      <> Py.np_clip (1001 - 1) 0 (Z.of_nat (length mods) - 1)
  | Py.Raise _ => False
  end.
Proof.
  intros mods c.
  assert (mods !! 1001%nat = Some (array 1001)) as Hlast
    by (apply arrays_lookup; lia).
  assert (mods !! 1000%nat = Some (array 1000)) as Hprev
    by (apply arrays_lookup; lia).
  pose proof (arrays_names_unique 1002) as Hnd. fold mods in Hnd.
  split; [done|]. split; [done|].
  rewrite (MoveUpFacts.execute_single_step_state refuses c 1001 (array 1001));
    [|reflexivity|exact Hlast].
  cbv zeta. rewrite MoveUpFacts.ml_active_after_single_step.
  change (get_ml_active_object c) with (mesh mods 1001).
  rewrite MoveUpFacts.modifiers_set_ml_modifier_active_index,
    MoveUpFacts.modifiers_set_modifiers,
    MoveUpFacts.index_set_ml_modifier_active_index.
  change (modifiers (mesh mods 1001)) with mods.
  rewrite (modifier_move_up_swap refuses _ _ _ _ Hnd Hlast Hprev
             (refuses_array 1000 _)).
  split; [|split].
  - apply list_lookup_insert_eq. rewrite length_insert.
    unfold mods. rewrite arrays_length. lia.
  - unfold Py.np_clip. lia.
  - unfold mods. rewrite arrays_length. unfold Py.np_clip. lia.
Qed.

Lemma execute_single_step_witness :
  exists c',
    OBJECT_OT_ml_modifier_move_up.execute refuses
      (scene (mesh [bevel; subsurf; mirror] 2) "VIEW_3D" 83) false
    = Py.Ok (c', FINISHED) /\
    modifiers (get_ml_active_object c') !! 1%nat = Some mirror.
Proof.
  destruct (MoveUpFacts.execute_single_step refuses
              (scene (mesh [bevel; subsurf; mirror] 2) "VIEW_3D" 83) 2 mirror)
    as (c' & Hrun & Hat & _).
  - apply names_unique. vm_compute. reflexivity.
  - reflexivity.
  - reflexivity.
  - lia.
  - intros p Hp. injection Hp as <-. vm_compute. reflexivity.
  - exists c'. split; [exact Hrun | exact Hat].
Defined.

(** Against C2 as stated: in the sequence [Multires; Bevel; Subdivision]
    with Subdivision active (index 2) on a host at 2.83, the host lets
    Subdivision pass Bevel and refuses the swap with Multires. After
    jump-to-top Subdivision is at index 1, not at index 0, and the active
    index is 0. *)
Lemma execute_jump_to_top_host_refuses :
  let mods := [multires; bevel; subsurf] in
  let c := scene (mesh mods 2) "PROPERTIES" 83 in
  NoDup (name <$> mods) /\ mods !! 2%nat = Some subsurf /\
  Qle_bool (290 # 100) (version_major_point_minor c) = false /\
  match OBJECT_OT_ml_modifier_move_up.execute refuses c true with
  | Py.Ok (c', _) =>
      let ob' := get_ml_active_object c' in
      modifiers ob' = [multires; subsurf; bevel] /\
      modifiers ob' !! 0%nat <> Some subsurf /\
      ml_modifier_active_index ob' = 0
  | Py.Raise _ => False
  end.
Proof.
  intros mods c.
  split; [apply names_unique; by vm_compute|].
  split; [done|]. split; [done|].
  vm_compute. repeat split. discriminate.
Qed.

Lemma execute_jump_to_top_fallback_witness :
  exists c',
    OBJECT_OT_ml_modifier_move_up.execute refuses
      (scene (mesh [bevel; subsurf; mirror] 2) "VIEW_3D" 83) true
    = Py.Ok (c', FINISHED) /\
    modifiers (get_ml_active_object c') = [mirror; bevel; subsurf].
Proof.
  destruct (MoveUpFacts.execute_jump_to_top_fallback refuses
              (scene (mesh [bevel; subsurf; mirror] 2) "VIEW_3D" 83) 2 mirror)
    as (c' & Hrun & _ & _ & _ & _ & Htop).
  - apply names_unique. vm_compute. reflexivity.
  - reflexivity.
  - reflexivity.
  - lia.
  - reflexivity.
  - exists c'. split; [exact Hrun|]. apply Htop.
    repeat constructor.
Defined.

(** The first entry is active: move-up is refused and nothing changes. *)
Lemma poll_refuses_witness :
  OBJECT_OT_ml_modifier_move_up.call refuses (fun _ _ => true)
    (scene (mesh [bevel; subsurf] 0) "VIEW_3D" 83) true
  = Py.Ok (scene (mesh [bevel; subsurf] 0) "VIEW_3D" 83).
Proof.
  refine (proj2 (poll_refuses refuses (fun _ _ => true)
                   (scene (mesh [bevel; subsurf] 0) "VIEW_3D" 83) true) _).
  reflexivity.
Defined.

(** Subdivision with show_viewport off, in the list: the toggle is
    drawn on an active row with the muted icon. *)
Lemma show_in_editmode_button_spec_witness :
  exists a icon,
    show_in_editmode_button DONT_SUPPORT_SHOW_IN_EDITMODE pcoll
      (Modifier "Subdivision" "SUBSURF" false true true false false) true
    = [container Row a
         [prop "Subdivision" "show_in_editmode" "" (Some icon) false]] /\
    active a = true /\ icon = pcoll "SHOW_IN_EDITMODE_ON_INACTIVE".
Proof.
  destruct (proj2 (show_in_editmode_button_spec DONT_SUPPORT_SHOW_IN_EDITMODE pcoll
                     (Modifier "Subdivision" "SUBSURF" false true true false false)
                     true))
    as (a & icon & Hout & _ & _ & _ & Hlist).
  - apply not_in_table. vm_compute. reflexivity.
  - destruct (Hlist eq_refl) as [Hactive Hicon].
    exists a, icon. split; [exact Hout | split; [exact Hactive | exact Hicon]].
Defined.

End AtSamples.

(** * More properties of the code *)

(** ** Indexing *)

Section IndexFacts.

Context {A : Type}.
Implicit Types (l : list A) (i : Z).

Lemma index_inside l i :
  - Z.of_nat (length l) <= i < Z.of_nat (length l) ->
  exists x, Py.index l i = Py.Ok x.
Proof.
  intros Hi. unfold Py.index.
  set (j := if i <? 0 then i + Z.of_nat (length l) else i).
  assert (0 <= j < Z.of_nat (length l)) as Hj.
  { subst j. destruct (i <? 0) eqn:E; [apply Z.ltb_lt in E | apply Z.ltb_ge in E]; lia. }
  rewrite (proj2 (Z.leb_le _ _)), (proj2 (Z.ltb_lt _ _)) by lia. simpl.
  destruct (lookup_lt_is_Some_2 l (Z.to_nat j)) as [x Hx]; [lia|].
  rewrite Hx. by exists x.
Qed.

Lemma index_outside l i :
  ~ (- Z.of_nat (length l) <= i < Z.of_nat (length l)) ->
  Py.index l i = Py.Raise Py.IndexError.
Proof.
  intros Hi. unfold Py.index.
  destruct (i <? 0) eqn:E; [apply Z.ltb_lt in E | apply Z.ltb_ge in E].
  - rewrite (proj2 (Z.leb_gt _ _)) by lia. done.
  - rewrite (proj2 (Z.ltb_ge _ _)) by lia. by rewrite andb_false_r.
Qed.

Lemma index_raises l i :
  Py.index l i = Py.Raise Py.IndexError <->
  ~ (- Z.of_nat (length l) <= i < Z.of_nat (length l)).
Proof.
  split; [|apply index_outside].
  intros Hraise Hin. destruct (index_inside l i Hin) as [x Hx]. congruence.
Qed.

End IndexFacts.

(** ** The host primitives keep the entries *)

Lemma swap_adjacent_Permutation (mods : list modifier) (a : nat) (m p : modifier) :
  mods !! a = Some p -> mods !! S a = Some m ->
  <[a := m]> (<[S a := p]> mods) ≡ₚ mods.
Proof.
  intros Hp Hm.
  pose proof (lookup_lt_Some _ _ _ Hm) as Hlen.
  assert (mods = take a mods ++ p :: m :: drop (S (S a)) mods) as Hsplit.
  { rewrite <- (take_drop_middle mods a p Hp) at 1. f_equal. f_equal.
    rewrite <- (take_drop_middle (drop (S a) mods) 0 m).
    - by rewrite take_0, drop_drop, Nat.add_1_r.
    - rewrite lookup_drop, Nat.add_0_r. done. }
  assert (length (take a mods) = a) as Hpre by (rewrite length_take; lia).
  rewrite Hsplit at 1.
  rewrite (insert_app_r_alt _ _ (S a)) by lia.
  rewrite Hpre. replace (S a - a)%nat with 1%nat by lia. simpl.
  rewrite (insert_app_r_alt _ _ a) by lia.
  rewrite Hpre, Nat.sub_diag. simpl.
  rewrite Hsplit at 3.
  apply Permutation_app_head, perm_swap.
Qed.

Section HostKeepsEntries.

Variable refuses : modifier -> modifier -> bool.

Lemma try_move_up_Permutation (n : string) (mods mods' : list modifier) :
  Host.try_move_up refuses n mods = Some mods' -> mods' ≡ₚ mods.
Proof.
  unfold Host.try_move_up.
  destruct (0 <? find n mods) eqn:Hpos; [|done].
  apply Z.ltb_lt in Hpos.
  destruct (mods !! Z.to_nat (find n mods - 1)) as [p|] eqn:Hp; [|done].
  destruct (mods !! Z.to_nat (find n mods)) as [m|] eqn:Hm; [|done].
  destruct (refuses p m); [done|]. intros [= <-].
  replace (Z.to_nat (find n mods)) with (S (Z.to_nat (find n mods - 1))) in * by lia.
  by apply swap_adjacent_Permutation.
Qed.

Lemma try_move_down_Permutation (n : string) (mods mods' : list modifier) :
  Host.try_move_down refuses n mods = Some mods' -> mods' ≡ₚ mods.
Proof.
  unfold Host.try_move_down.
  destruct (0 <=? find n mods) eqn:Hpos; [|done].
  apply Z.leb_le in Hpos.
  destruct (mods !! Z.to_nat (find n mods)) as [m|] eqn:Hm; [|done].
  destruct (mods !! Z.to_nat (find n mods + 1)) as [q|] eqn:Hq; [|done].
  destruct (refuses m q); [done|]. intros [= <-].
  replace (Z.to_nat (find n mods + 1)) with (S (Z.to_nat (find n mods))) in * by lia.
  by apply swap_adjacent_Permutation.
Qed.

Lemma move_while_Permutation (step : list modifier -> option (list modifier))
    (k : nat) (mods : list modifier) :
  (forall l l', step l = Some l' -> l' ≡ₚ l) ->
  Host.move_while step k mods ≡ₚ mods.
Proof.
  intros Hstep. revert mods. induction k as [|k IH]; intros mods; simpl; [done|].
  destruct (step mods) as [mods'|] eqn:Hs; [|done].
  rewrite IH. by apply Hstep.
Qed.

Lemma modifier_move_up_Permutation (n : string) (mods : list modifier) :
  Host.modifier_move_up refuses n mods ≡ₚ mods.
Proof.
  unfold Host.modifier_move_up.
  destruct (Host.try_move_up refuses n mods) as [mods'|] eqn:Hs; [|done].
  simpl. by apply (try_move_up_Permutation n).
Qed.

Lemma modifier_move_to_index_Permutation (n : string) (i : Z) (mods : list modifier) :
  Host.modifier_move_to_index refuses n i mods ≡ₚ mods.
Proof.
  unfold Host.modifier_move_to_index.
  destruct (_ || _); [done|].
  destruct (_ <? _); apply move_while_Permutation; intros l l'.
  - apply try_move_down_Permutation.
  - apply try_move_up_Permutation.
Qed.

Lemma modifier_move_up_iter_Permutation (n : string) (mods : list modifier) (k : nat) :
  Nat.iter k (Host.modifier_move_up refuses n) mods ≡ₚ mods.
Proof.
  induction k as [|k IH]; simpl; [done|].
  by rewrite modifier_move_up_Permutation.
Qed.

End HostKeepsEntries.

(** ** More on the list-reorder controller *)

Section ContextMore.

Implicit Types (c : context) (f g : object -> object).

Lemma on_ml_active_object_compose f g c :
  on_ml_active_object f (on_ml_active_object g c)
  = on_ml_active_object (fun ob => f (g ob)) c.
Proof. by destruct c as [cob [pin| ] area ver v]. Qed.

Lemma on_ml_active_object_id f c :
  f (get_ml_active_object c) = get_ml_active_object c ->
  on_ml_active_object f c = c.
Proof.
  destruct c as [cob [pin| ] area ver v]; unfold get_ml_active_object; simpl;
    intros Heq; unfold on_ml_active_object, on_context_object; simpl;
    by rewrite Heq.
Qed.

Lemma object_unchanged (ob : object) (mods : list modifier) (i : Z) :
  modifiers ob = mods -> ml_modifier_active_index ob = i ->
  set_ml_modifier_active_index i (set_modifiers mods ob) = ob.
Proof. destruct ob. simpl. by intros -> ->. Qed.

End ContextMore.

Module MoveUpMore.

Import OBJECT_OT_ml_modifier_move_up.

Section Rule.

Variable refuses : modifier -> modifier -> bool.

(** Once the active entry is read, [execute] runs to its end. *)
Lemma execute_after_index (c : context) (shift : bool) (m : modifier) :
  Py.index (modifiers (get_ml_active_object c))
    (ml_modifier_active_index (get_ml_active_object c)) = Py.Ok m ->
  exists c', execute refuses c shift = Py.Ok (c', FINISHED).
Proof.
  intros Hm. unfold execute. rewrite Hm. simpl.
  destruct shift; eauto.
Qed.

(** X1. [execute] raises IndexError exactly when the active index is
    outside [-len, len) (so always on an empty sequence), and returns
    FINISHED exactly when it is inside. *)
Theorem execute_raises_iff (c : context) (shift : bool) :
  let ob := get_ml_active_object c in
  let len := Z.of_nat (length (modifiers ob)) in
  (execute refuses c shift = Py.Raise Py.IndexError <->
   ~ (- len <= ml_modifier_active_index ob < len)) /\
  ((exists c', execute refuses c shift = Py.Ok (c', FINISHED)) <->
   - len <= ml_modifier_active_index ob < len).
Proof.
  intros ob len.
  destruct (decide (- len <= ml_modifier_active_index ob < len)) as [Hin|Hout].
  - destruct (index_inside _ _ Hin) as [m Hm].
    destruct (execute_after_index c shift m Hm) as [c' Hc'].
    split; split; try done; eauto. rewrite Hc'. done.
  - pose proof (index_outside _ _ Hout) as Hraise.
    assert (execute refuses c shift = Py.Raise Py.IndexError) as Hex.
    { unfold execute. fold ob. by rewrite Hraise. }
    split; split; try done. intros [c' Hc']. congruence.
Qed.

Section Poll.

Variable is_modifier_local : object -> modifier -> bool.

(** X2. [poll] raises IndexError exactly when the sequence is not empty,
    the active index is not 0 and it is outside [-len, len). *)
Theorem poll_raises_iff (c : context) :
  let ob := get_ml_active_object c in
  let len := Z.of_nat (length (modifiers ob)) in
  poll is_modifier_local c = Py.Raise Py.IndexError <->
  modifiers ob <> [] /\ ml_modifier_active_index ob <> 0 /\
  ~ (- len <= ml_modifier_active_index ob < len).
Proof.
  intros ob len. unfold poll. fold ob.
  case_bool_decide as Hempty; [split; [done | tauto]|].
  destruct (ml_modifier_active_index ob =? 0) eqn:Hzero.
  { apply Z.eqb_eq in Hzero. split; [done | tauto]. }
  apply Z.eqb_neq in Hzero.
  destruct (decide (- len <= ml_modifier_active_index ob < len)) as [Hin|Hout].
  - destruct (index_inside _ _ Hin) as [m Hm]. rewrite Hm. simpl.
    split; [done | tauto].
  - rewrite (index_outside _ _ Hout). simpl. tauto.
Qed.

(** X3. A command that [poll] accepts runs to its end: [execute] does not
    raise and returns FINISHED. *)
Theorem call_accepted (c : context) (shift : bool) :
  poll is_modifier_local c = Py.Ok true ->
  exists c', execute refuses c shift = Py.Ok (c', FINISHED) /\
             call refuses is_modifier_local c shift = Py.Ok c'.
Proof.
  intros Hpoll. unfold call, invoke. rewrite Hpoll. simpl.
  unfold poll in Hpoll.
  case_bool_decide; [done|].
  destruct (_ =? 0); [done|].
  destruct (Py.index _ _) as [m|e] eqn:Hm; [|done].
  destruct (execute_after_index c shift m Hm) as [c' Hc'].
  exists c'. by rewrite Hc'.
Qed.

End Poll.

(** X4. Whatever [execute] does, no entry is added, dropped or
    duplicated: the sequences of [context.object] and of the pinned object
    are permutations of what they were; the object the add-on shows keeps
    its name, type and parent; the area and the version are untouched. *)
Theorem execute_keeps_entries (c c' : context) (shift : bool) (st : status) :
  execute refuses c shift = Py.Ok (c', st) ->
  modifiers (context_object c') ≡ₚ modifiers (context_object c) /\
  option_Forall2 (fun p' p => modifiers p' ≡ₚ modifiers p)
    (pinned_object c') (pinned_object c) /\
  ob_name (get_ml_active_object c') = ob_name (get_ml_active_object c) /\
  ob_type (get_ml_active_object c') = ob_type (get_ml_active_object c) /\
  parent (get_ml_active_object c') = parent (get_ml_active_object c) /\
  area_type c' = area_type c /\ app_version c' = app_version c /\
  version_major_point_minor c' = version_major_point_minor c.
Proof.
  assert (forall (o1 o2 : option object),
             match o1, o2 with
             | Some p', Some p => modifiers p' ≡ₚ modifiers p
             | None, None => True
             | _, _ => False
             end ->
             option_Forall2 (fun p' p => modifiers p' ≡ₚ modifiers p) o1 o2)
    as Hopt.
  { intros [p'|] [p|] H; try done; by constructor. }
  unfold execute.
  destruct (Py.index _ _) as [m|e]; [|done]. simpl.
  destruct shift.
  - destruct (Qle_bool _ _).
    + intros [= <- <-]. unfold ops_modifier_move_to_index.
      destruct c as [cob [pin| ] area ver v]; simpl;
        (split; [apply modifier_move_to_index_Permutation|]);
        (split; [by apply Hopt|]); done.
    + intros [= <- <-]. unfold ops_modifier_move_up.
      rewrite on_ml_active_object_iter.
      destruct c as [cob [pin| ] area ver v]; simpl;
        rewrite ?set_modifiers_iter; simpl;
        (split; [try done; apply modifier_move_up_iter_Permutation|]);
        (split; [apply Hopt; simpl; try done;
                 apply modifier_move_up_iter_Permutation|]); done.
  - intros [= <- <-]. unfold ops_modifier_move_up.
    destruct c as [cob [pin| ] area ver v]; simpl;
      (split; [try done; apply modifier_move_up_Permutation|]);
      (split; [apply Hopt; simpl; try done;
               apply modifier_move_up_Permutation|]); done.
Qed.

(** X5. With the first entry active, move-up changes nothing at all: the
    single step, and jump-to-top on a host below 2.90 or with no object
    pinned, return the context as it was. *)
Theorem execute_at_top (c : context) (shift : bool) :
  let ob := get_ml_active_object c in
  modifiers ob <> [] ->
  ml_modifier_active_index ob = 0 ->
  shift = false \/ Qle_bool (290 # 100) (version_major_point_minor c) = false
  \/ pinned_object c = None ->
  execute refuses c shift = Py.Ok (c, FINISHED).
Proof.
  intros ob Hne Hidx Hcase.
  destruct (modifiers ob) as [|m rest] eqn:Hmods; [done|].
  assert (Host.modifier_move_up refuses (name m) (m :: rest) = m :: rest) as Hup.
  { unfold Host.modifier_move_up, Host.try_move_up. simpl. by rewrite decide_True. }
  assert (Host.modifier_move_to_index refuses (name m) 0 (m :: rest) = m :: rest) as Hto.
  { unfold Host.modifier_move_to_index. simpl. by rewrite decide_True. }
  unfold execute. fold ob. rewrite Hmods, Hidx. simpl.
  destruct shift.
  - destruct (Qle_bool _ _) eqn:Hv.
    + destruct Hcase as [? | [? | Hpin]]; [done | done |].
      unfold ops_modifier_move_to_index, on_ml_active_object, on_context_object.
      subst ob. unfold get_ml_active_object in *.
      destruct c as [cob pin area ver v]. simpl in *. subst pin. simpl.
      rewrite Hmods, Hto. do 3 f_equal. by apply object_unchanged.
    + simpl. do 2 f_equal. apply on_ml_active_object_id. fold ob.
      destruct ob. simpl in *. by subst.
  - unfold ops_modifier_move_up. rewrite on_ml_active_object_compose.
    do 2 f_equal. apply on_ml_active_object_id. fold ob.
    rewrite Hmods, Hup. by apply object_unchanged.
Qed.

(** X6. With an object pinned on a host from 2.90 on, jump-to-top does
    not reorder the modifiers of the pinned object, whose entry is the
    active one: the move-to-index call is made without the override and
    goes to [context.object]. Only the active index of the pinned object
    is set to 0. *)
Theorem execute_jump_to_top_pinned (c : context) (p : object) (i : nat) (m : modifier) :
  pinned_object c = Some p ->
  ml_modifier_active_index p = Z.of_nat i ->
  modifiers p !! i = Some m ->
  Qle_bool (290 # 100) (version_major_point_minor c) = true ->
  exists c',
    execute refuses c true = Py.Ok (c', FINISHED) /\
    pinned_object c' = Some (set_ml_modifier_active_index 0 p) /\
    modifiers (get_ml_active_object c') = modifiers p /\
    modifiers (context_object c')
    = Host.modifier_move_to_index refuses (name m) 0 (modifiers (context_object c)).
Proof.
  intros Hpin Hidx Hi Hnew.
  destruct c as [cob pin area ver v]. simpl in *. subst pin.
  eexists. split.
  - unfold execute, get_ml_active_object. simpl.
    rewrite Hidx, (index_in_range _ _ _ Hi). simpl.
    rewrite Hnew. reflexivity.
  - done.
Qed.

End Rule.

End MoveUpMore.

(** ** Single steps up to the top *)

Module SingleSteps.

Import OBJECT_OT_ml_modifier_move_up.

Section Rule.

Variable refuses : modifier -> modifier -> bool.

Lemma single_steps_split (m : modifier) (pre : list modifier) :
  forall (post : list modifier) (c : context),
    modifiers (get_ml_active_object c) = pre ++ m :: post ->
    ml_modifier_active_index (get_ml_active_object c) = Z.of_nat (length pre) ->
    name m ∉ name <$> pre ->
    Forall (fun p => refuses p m = false) pre ->
    (length pre <= 1000)%nat ->
    single_steps refuses (length pre) c
    = Py.Ok (on_ml_active_object
               (fun ob => set_ml_modifier_active_index 0
                            (set_modifiers (m :: pre ++ post) ob)) c).
Proof.
  induction pre as [|p pre IH] using rev_ind;
    intros post c Hmods Hidx Hnotin Hfree Hlen.
  - simpl. f_equal. symmetry. apply on_ml_active_object_id.
    by apply object_unchanged.
  - rewrite fmap_app, not_elem_of_app in Hnotin. destruct Hnotin as [Hpre Hp].
    simpl in Hp. rewrite not_elem_of_cons in Hp. destruct Hp as [Hp _].
    apply Forall_app in Hfree as [Hfree Hswap]. apply Forall_inv in Hswap.
    rewrite length_app in *. simpl in *.
    replace (length pre + 1)%nat with (S (length pre)) in * by lia.
    cbn [single_steps].
    rewrite (MoveUpFacts.execute_single_step_state refuses c (S (length pre)) m Hidx).
    2:{ rewrite Hmods. apply list_lookup_middle. rewrite length_app. simpl. lia. }
    cbn [Py.bind fst].
    assert (Py.np_clip (Z.of_nat (S (length pre)) - 1) 0 999 = Z.of_nat (length pre))
      as -> by (unfold Py.np_clip; lia).
    rewrite (IH (p :: post)).
    + f_equal. unfold ops_modifier_move_up.
      rewrite !on_ml_active_object_compose.
      apply on_ml_active_object_ext. simpl.
      by rewrite <- (assoc_L (++)).
    + rewrite MoveUpFacts.ml_active_after_single_step. simpl.
      rewrite Hmods, <- (assoc_L (++)). simpl.
      apply modifier_move_up_middle; [done | by intros Heq | done].
    + by rewrite MoveUpFacts.ml_active_after_single_step.
    + done.
    + done.
    + lia.
Qed.

(** X7. Below 2.90, up to index 1000 and when the host refuses none of
    the swaps of the active entry with the entries before it,
    jump-to-top is the single step repeated: with the active entry at
    index [i], [i] runs of move-up without shift leave exactly the context
    that one run with shift leaves. *)
Theorem single_steps_are_jump_to_top (c : context) (i : nat) (m : modifier) :
  let ob := get_ml_active_object c in
  NoDup (name <$> modifiers ob) ->
  ml_modifier_active_index ob = Z.of_nat i ->
  modifiers ob !! i = Some m ->
  (i <= 1000)%nat ->
  Forall (fun p => refuses p m = false) (take i (modifiers ob)) ->
  Qle_bool (290 # 100) (version_major_point_minor c) = false ->
  exists c',
    single_steps refuses i c = Py.Ok c' /\
    execute refuses c true = Py.Ok (c', FINISHED) /\
    modifiers (get_ml_active_object c') = m :: delete i (modifiers ob) /\
    ml_modifier_active_index (get_ml_active_object c') = 0.
Proof.
  intros ob Hnd Hidx Hi Hle Hfree Hold.
  destruct (split_at _ _ _ Hnd Hi) as (pre & post & Hsplit & Hlen & Hpre & Hdel).
  assert (take i (modifiers ob) = pre) as Htake.
  { rewrite Hsplit, <- Hlen. apply take_app_length. }
  rewrite Htake in Hfree.
  eexists. split; [|split; [|split]].
  - rewrite <- Hlen.
    apply (single_steps_split m pre post c); [done | | done | done | lia].
    fold ob. by rewrite Hidx, Hlen.
  - rewrite (MoveUpFacts.execute_fallback_state refuses c i m Hidx Hi Hold).
    do 2 f_equal. apply on_ml_active_object_ext. fold ob.
    rewrite Hsplit, <- Hlen.
    by rewrite modifier_move_up_iter.
  - rewrite get_on_ml_active_object. simpl. by rewrite Hdel.
  - by rewrite get_on_ml_active_object.
Qed.

End Rule.

End SingleSteps.

(** ** More on the visibility-state resolver *)

Section ResolverMore.

Variable DONT_SUPPORT_SHOW_IN_EDITMODE : gset string.
Variable SUPPORT_USE_APPLY_ON_SPLINE : gset string.
Variable SUPPORT_SHOW_ON_CAGE : gset string.
Variable pcoll : string -> Z.

Lemma show_on_cage_button_cases (ob : object) (m : modifier) (use_in_list : bool) :
  let r := show_on_cage_button SUPPORT_SHOW_ON_CAGE pcoll ob m use_in_list in
  r = (false, []) \/
  type m ∈ SUPPORT_SHOW_ON_CAGE /\
  exists a icon,
    r = (true, [container Row a
                  [prop (name m) "show_on_cage" "" (Some icon) (negb use_in_list)]]).
Proof.
  unfold show_on_cage_button. simpl.
  case_bool_decide as Hcap; simpl; [|by left].
  destruct (Py.for_break _ (scanned_before _ _)); [by left|].
  right. split; [done|].
  destruct (_ || _) eqn:Hin; destruct use_in_list; simpl; eauto.
Qed.

(** X8. The value [show_on_cage_button] returns tells what it drew: True
    with exactly one row holding the show_on_cage toggle of the modifier,
    or False with nothing drawn. It is True iff the modifier is
    cage-capable and no modifier at a position below
    [min (max k 1) 99], [k] the position of its name, has show_in_editmode
    on without being cage-capable. *)
Theorem show_on_cage_button_added (ob : object) (m : modifier) (use_in_list : bool) :
  let r := show_on_cage_button SUPPORT_SHOW_ON_CAGE pcoll ob m use_in_list in
  let stop := Z.min (Z.max (find (name m) (modifiers ob)) 1) 99 in
  (fst r = true <->
   type m ∈ SUPPORT_SHOW_ON_CAGE /\
   ~ exists (j : nat) m',
       Z.of_nat j < stop /\ modifiers ob !! j = Some m' /\
       show_in_editmode m' = true /\ type m' ∉ SUPPORT_SHOW_ON_CAGE) /\
  ((fst r = false /\ snd r = []) \/
   (fst r = true /\
    exists a icon,
      snd r = [container Row a
                 [prop (name m) "show_on_cage" "" (Some icon) (negb use_in_list)]])).
Proof.
  intros r stop. split.
  - subst r. unfold show_on_cage_button.
    case_bool_decide as Hcap; simpl; [|split; [done | tauto]].
    destruct (Py.for_break _ (scanned_before _ _)) eqn:Hscan.
    + apply before_scan_true in Hscan. split; [done | tauto].
    + apply not_true_iff_false in Hscan. rewrite before_scan_true in Hscan.
      split; [tauto|]. intros _.
      by destruct (_ || _), use_in_list.
  - destruct (show_on_cage_button_cases ob m use_in_list) as [Hr | (_ & a & icon & Hr)];
      fold r in Hr; rewrite Hr; simpl; [by left | right; eauto].
Qed.

(** X9. A cage-capable modifier at index [i] with no blocker before it and
    no later modifier that has show_viewport, show_in_editmode and
    show_on_cage all on: the button is drawn and shows the modifier's own
    show_on_cage flag. It is usable iff the modifier's show_viewport and
    show_in_editmode are both on; otherwise the row is inactive in the
    detail panel and the icons are the inactive ones in the list. *)
Theorem show_on_cage_button_own_flag
    (ob : object) (i : nat) (m : modifier) (use_in_list : bool) :
  NoDup (name <$> modifiers ob) ->
  modifiers ob !! i = Some m ->
  type m ∈ SUPPORT_SHOW_ON_CAGE ->
  (forall (j : nat) m', (j < i)%nat -> modifiers ob !! j = Some m' ->
                        ~ (show_in_editmode m' = true /\ type m' ∉ SUPPORT_SHOW_ON_CAGE)) ->
  (forall (j : nat) m', (i < j)%nat -> modifiers ob !! j = Some m' ->
                        ~ (show_viewport m' = true /\ show_in_editmode m' = true /\
                           show_on_cage m' = true)) ->
  let usable := show_viewport m && show_in_editmode m in
  let key :=
    if use_in_list && negb usable
    then (if show_on_cage m then "SHOW_ON_CAGE_ON_INACTIVE"
          else "SHOW_ON_CAGE_OFF_INACTIVE")
    else (if show_on_cage m then "SHOW_ON_CAGE_ON" else "SHOW_ON_CAGE_OFF") in
  show_on_cage_button SUPPORT_SHOW_ON_CAGE pcoll ob m use_in_list =
    (true,
     [container Row
        (if use_in_list || usable then fresh true else set_active false (fresh true))
        [prop (name m) "show_on_cage" "" (Some (pcoll key)) (negb use_in_list)]]).
Proof.
  intros Hnd Hi Hcap Hbefore Hafter usable key.
  unfold show_on_cage_button.
  rewrite bool_decide_eq_true_2 by done. simpl.
  rewrite (find_lookup _ _ _ Hnd Hi).
  rewrite (before_scan_clear _ _ _ _ Hi Hcap Hbefore).
  assert (Py.for_break owns_cage (scanned_after (modifiers ob) (Z.of_nat i)) = false)
    as ->.
  { apply not_true_iff_false. rewrite after_scan_true.
    intros (j & m' & Hlt & Hj & Hown). apply (Hafter j m' Hlt Hj).
    unfold owns_cage in Hown. by repeat (apply andb_prop in Hown as [Hown ?]). }
  subst usable key.
  by destruct use_in_list, (show_viewport m), (show_in_editmode m), (show_on_cage m).
Qed.

(** *** The parts of a modifier's row *)

Lemma show_in_editmode_button_shows (m : modifier) (use_in_list : bool)
    (owner property : string) :
  property <> "show_in_editmode" ->
  existsb (shows owner property)
    (show_in_editmode_button DONT_SUPPORT_SHOW_IN_EDITMODE pcoll m use_in_list) = false.
Proof.
  intros Hne. unfold show_in_editmode_button.
  case_bool_decide; [done|].
  destruct use_in_list, (show_viewport m), (show_in_editmode m); simpl;
    by rewrite bool_decide_eq_false_2.
Qed.

Lemma show_in_editmode_button_plain (m : modifier) (use_in_list : bool) :
  existsb has_operator
    (show_in_editmode_button DONT_SUPPORT_SHOW_IN_EDITMODE pcoll m use_in_list) = false /\
  exists a ws,
    show_in_editmode_button DONT_SUPPORT_SHOW_IN_EDITMODE pcoll m use_in_list
    = [container Row a ws].
Proof.
  unfold show_in_editmode_button.
  case_bool_decide; [by eauto|].
  destruct use_in_list, (show_viewport m), (show_in_editmode m); simpl; eauto.
Qed.

Lemma mesh_properties_context_change_button_added
    (c : context) (m : modifier) (use_in_list : bool) :
  let r := mesh_properties_context_change_button c m use_in_list in
  r = (false, []) \/
  use_in_list = false /\ area_type c = "PROPERTIES" /\
  exists ctx, r = (true, [container Row (fresh true) [properties_context_change ctx]]).
Proof.
  unfold mesh_properties_context_change_button. simpl.
  case_bool_decide as Harea; simpl; [|by left].
  destruct use_in_list; [by left|].
  destruct (bool_decide (type m ∈ _)); [right; eauto|].
  destruct (bool_decide (type m = _)); [right; eauto | by left].
Qed.

(** The anatomy of the row [modifier_visibility_buttons] draws. *)
Lemma modifier_visibility_buttons_shape
    (c : context) (m : modifier) (use_in_list : bool) :
  let ob := get_ml_active_object c in
  let blank := container Row (fresh true) [empty_space pcoll] in
  exists e rest,
    modifier_visibility_buttons DONT_SUPPORT_SHOW_IN_EDITMODE
      SUPPORT_USE_APPLY_ON_SPLINE SUPPORT_SHOW_ON_CAGE pcoll c m use_in_list
    = [container Row
         (set_scale_x (if use_in_list then 1 else 12 # 10) (fresh true))
         (container Row (fresh true)
            (if bool_decide (type m = "COLLISION")
             then [empty_space pcoll; empty_space pcoll]
             else [prop (name m) "show_render" "" None (negb use_in_list);
                   prop (name m) "show_viewport" "" None (negb use_in_list)])
          :: e :: rest)] /\
    show_in_editmode_button DONT_SUPPORT_SHOW_IN_EDITMODE pcoll m use_in_list = [e] /\
    ((ob_type ob = "LATTICE" /\ rest = []) \/
     (ob_type ob <> "LATTICE" /\
      exists w, rest = [w] /\
        (w = blank \/
         (use_in_list = false /\
          (ob_type ob = "MESH" -> area_type c = "PROPERTIES") /\
          (ob_type ob <> "MESH" -> type m = "SOFT_BODY") /\
          exists ctx, w = container Row (fresh true) [properties_context_change ctx]) \/
         (ob_type ob = "MESH" /\ type m ∈ SUPPORT_SHOW_ON_CAGE /\
          exists a icon,
            w = container Row a
                  [prop (name m) "show_on_cage" "" (Some icon) (negb use_in_list)]) \/
         (ob_type ob <> "MESH" /\ type m ∈ SUPPORT_USE_APPLY_ON_SPLINE /\
          type m <> "SOFT_BODY" /\
          exists icon,
            w = container Row (fresh true)
                  [prop (name m) "use_apply_on_spline" "" (Some icon)
                     (negb use_in_list)])))).
Proof.
  intros ob blank.
  destruct (show_in_editmode_button_plain m use_in_list) as (_ & a & ws & He).
  unfold modifier_visibility_buttons. fold ob. rewrite He.
  destruct (decide (ob_type ob = "LATTICE")) as [Hlattice|Hlattice].
  { rewrite (bool_decide_eq_true_2 _ Hlattice).
    eexists _, []. split; [reflexivity|]. split; [done|]. by left. }
  rewrite (bool_decide_eq_false_2 _ Hlattice).
  destruct (decide (ob_type ob = "MESH")) as [Hmesh|Hmesh];
    [rewrite (bool_decide_eq_true_2 _ Hmesh)
    |rewrite (bool_decide_eq_false_2 _ Hmesh)]; simpl.
  - destruct (show_on_cage_button_cases ob m use_in_list)
      as [-> | (Hcap & a' & icon & ->)].
    + simpl.
      destruct (mesh_properties_context_change_button_added c m use_in_list)
        as [-> | (Hlist & Harea & ctx & ->)]; simpl.
      * eexists _, [_]. split; [reflexivity|]. split; [done|]. right.
        split; [done|]. eexists. split; [done|]. by left.
      * eexists _, [_]. split; [reflexivity|]. split; [done|]. right.
        split; [done|]. eexists. split; [done|]. right. left.
        repeat split; try done. by eexists.
    + simpl. eexists _, [_]. split; [reflexivity|]. split; [done|]. right.
      split; [done|]. eexists. split; [done|]. right. right. left.
      repeat split; try done. by eexists _, _.
  - destruct (decide (type m = "SOFT_BODY")) as [Hsoft|Hsoft];
      [rewrite (bool_decide_eq_true_2 _ Hsoft)
      |rewrite (bool_decide_eq_false_2 _ Hsoft)].
    + unfold curve_properties_context_change_button. destruct use_in_list.
      * eexists _, [_]. split; [reflexivity|]. split; [done|]. right.
        split; [done|]. eexists. split; [done|]. by left.
      * eexists _, [_]. split; [reflexivity|]. split; [done|]. right.
        split; [done|]. eexists. split; [done|]. right. left.
        repeat split; try done. by eexists.
    + unfold use_apply_on_spline_button.
      destruct (decide (type m ∈ SUPPORT_USE_APPLY_ON_SPLINE)) as [Hspline|Hspline];
        [rewrite (bool_decide_eq_true_2 _ Hspline)
        |rewrite (bool_decide_eq_false_2 _ Hspline)]; simpl.
      * eexists _, [_]. split; [reflexivity|]. split; [done|]. right.
        split; [done|]. eexists. split; [done|]. right. right. right.
        repeat split; try done. by eexists.
      * eexists _, [_]. split; [reflexivity|]. split; [done|]. right.
        split; [done|]. eexists. split; [done|]. by left.
Qed.

Lemma show_in_editmode_cell (m : modifier) (use_in_list : bool) (e : widget) :
  show_in_editmode_button DONT_SUPPORT_SHOW_IN_EDITMODE pcoll m use_in_list = [e] ->
  has_operator e = false /\
  (exists a ws, e = container Row a ws) /\
  (forall owner property, property <> "show_in_editmode" ->
                          shows owner property e = false) /\
  shows (name m) "show_in_editmode" e
  = negb (bool_decide (type m ∈ DONT_SUPPORT_SHOW_IN_EDITMODE)).
Proof.
  intros He.
  destruct (show_in_editmode_button_plain m use_in_list) as (Hop & a & ws & Hrow).
  rewrite He in Hop, Hrow. simpl in Hop. rewrite orb_false_r in Hop.
  injection Hrow as ->. repeat split; [done | by eauto | |].
  - intros owner property Hne.
    pose proof (show_in_editmode_button_shows m use_in_list owner property Hne) as H.
    rewrite He in H. simpl in H. by rewrite orb_false_r in H.
  - unfold show_in_editmode_button in He. case_bool_decide.
    + by injection He as <- <-.
    + destruct use_in_list, (show_viewport m), (show_in_editmode m);
        injection He as <- <-; simpl; by rewrite bool_decide_eq_true_2.
Qed.

(** Evaluates [shows] and [has_operator] on a row that is known cell by
    cell. *)
Ltac eval_row m :=
  destruct (bool_decide (type m = "COLLISION")); simpl;
  rewrite ?bool_decide_eq_true_2 by done; simpl;
  rewrite ?orb_false_r; repeat split; try done.

(** X10. [modifier_visibility_buttons] always draws one row of sub-rows:
    two of them for a lattice object and three for any other object, so
    that the toggles of all modifiers line up. *)
Theorem modifier_visibility_buttons_slots
    (c : context) (m : modifier) (use_in_list : bool) :
  exists a cells,
    modifier_visibility_buttons DONT_SUPPORT_SHOW_IN_EDITMODE
      SUPPORT_USE_APPLY_ON_SPLINE SUPPORT_SHOW_ON_CAGE pcoll c m use_in_list
    = [container Row a cells] /\
    length cells
    = (if bool_decide (ob_type (get_ml_active_object c) = "LATTICE") then 2 else 3)%nat /\
    Forall (fun w => exists a' ws, w = container Row a' ws) cells.
Proof.
  destruct (modifier_visibility_buttons_shape c m use_in_list)
    as (e & rest & -> & He & Hrest).
  destruct (show_in_editmode_cell m use_in_list e He) as (_ & Hrow & _).
  eexists _, _. split; [reflexivity|].
  destruct Hrest as [(Hl & ->) | (Hl & w & -> & Hw)].
  - rewrite (bool_decide_eq_true_2 _ Hl). split; [done|].
    repeat constructor; eauto.
  - rewrite (bool_decide_eq_false_2 _ Hl). split; [done|].
    repeat constructor; eauto.
    destruct Hw as [-> | [(_ & _ & _ & ctx & ->) | [(_ & _ & a & icon & ->)
                   | (_ & _ & _ & icon & ->)]]]; eauto.
Qed.

(** X11. The last place of the row holds at most one thing: the row never
    shows two of the show_on_cage toggle, the use_apply_on_spline toggle
    and an operator button. *)
Theorem modifier_visibility_buttons_exclusive
    (c : context) (m : modifier) (use_in_list : bool) :
  let r := modifier_visibility_buttons DONT_SUPPORT_SHOW_IN_EDITMODE
             SUPPORT_USE_APPLY_ON_SPLINE SUPPORT_SHOW_ON_CAGE pcoll c m use_in_list in
  let cage := existsb (shows (name m) "show_on_cage") r in
  let spline := existsb (shows (name m) "use_apply_on_spline") r in
  let op := existsb has_operator r in
  cage && spline = false /\ cage && op = false /\ spline && op = false.
Proof.
  intros r cage spline op. subst cage spline op r.
  destruct (modifier_visibility_buttons_shape c m use_in_list)
    as (e & rest & -> & He & Hrest).
  destruct (show_in_editmode_cell m use_in_list e He) as (Hop & _ & Hshows & _).
  simpl. rewrite Hop, !Hshows by done.
  destruct Hrest as [(_ & ->) | (_ & w & -> & Hw)].
  - eval_row m.
  - destruct Hw as [-> | [(_ & _ & _ & ctx & ->) | [(_ & _ & a & icon & ->)
                   | (_ & _ & _ & icon & ->)]]]; eval_row m.
Qed.

(** X12. Which toggle the row can hold depends on the type of the object:
    the show_on_cage toggle is only drawn for a mesh object and a
    cage-capable modifier, the use_apply_on_spline toggle only for an
    object that is neither a mesh nor a lattice and a modifier that
    supports it, and for a lattice object the row holds neither of them
    and no operator. *)
Theorem modifier_visibility_buttons_by_object_type
    (c : context) (m : modifier) (use_in_list : bool) :
  let ob := get_ml_active_object c in
  let r := modifier_visibility_buttons DONT_SUPPORT_SHOW_IN_EDITMODE
             SUPPORT_USE_APPLY_ON_SPLINE SUPPORT_SHOW_ON_CAGE pcoll c m use_in_list in
  let cage := existsb (shows (name m) "show_on_cage") r in
  let spline := existsb (shows (name m) "use_apply_on_spline") r in
  let op := existsb has_operator r in
  (cage = true -> ob_type ob = "MESH" /\ type m ∈ SUPPORT_SHOW_ON_CAGE) /\
  (spline = true ->
   ob_type ob <> "MESH" /\ ob_type ob <> "LATTICE" /\
   type m ∈ SUPPORT_USE_APPLY_ON_SPLINE /\ type m <> "SOFT_BODY") /\
  (ob_type ob = "LATTICE" -> cage = false /\ spline = false /\ op = false).
Proof.
  intros ob r cage spline op. subst cage spline op r.
  destruct (modifier_visibility_buttons_shape c m use_in_list)
    as (e & rest & -> & He & Hrest).
  destruct (show_in_editmode_cell m use_in_list e He) as (Hop & _ & Hshows & _).
  fold ob in Hrest. simpl. rewrite Hop, !Hshows by done.
  destruct Hrest as [(Hl & ->) | (Hl & w & -> & Hw)].
  - eval_row m.
  - destruct Hw as [-> | [(_ & _ & _ & ctx & ->) | [(Hmesh & Hcap & a & icon & ->)
                   | (Hmesh & Hsp & Hsoft & icon & ->)]]]; eval_row m.
Qed.

(** X13. An operator button in the row means the detail panel: in the list
    the row never holds an operator. For a mesh object the button is only
    drawn in the properties editor; for any other object only for a soft
    body modifier. *)
Theorem modifier_visibility_buttons_operator
    (c : context) (m : modifier) (use_in_list : bool) :
  let ob := get_ml_active_object c in
  existsb has_operator
    (modifier_visibility_buttons DONT_SUPPORT_SHOW_IN_EDITMODE
       SUPPORT_USE_APPLY_ON_SPLINE SUPPORT_SHOW_ON_CAGE pcoll c m use_in_list) = true ->
  use_in_list = false /\
  (ob_type ob = "MESH" -> area_type c = "PROPERTIES") /\
  (ob_type ob <> "MESH" -> type m = "SOFT_BODY").
Proof.
  intros ob.
  destruct (modifier_visibility_buttons_shape c m use_in_list)
    as (e & rest & -> & He & Hrest).
  destruct (show_in_editmode_cell m use_in_list e He) as (Hop & _ & _ & _).
  fold ob in Hrest. simpl. rewrite Hop.
  destruct Hrest as [(Hl & ->) | (Hl & w & -> & Hw)].
  - eval_row m.
  - destruct Hw as [-> | [(Hlist & Harea & Hsoft & ctx & ->)
                   | [(_ & _ & a & icon & ->) | (_ & _ & _ & icon & ->)]]];
      eval_row m.
Qed.

(** X14. The show_render and show_viewport toggles are drawn for every
    modifier but a collision modifier, and the show_in_editmode toggle
    for every modifier whose type is not in the unsupported set, whatever
    the object and the display mode. *)
Theorem modifier_visibility_buttons_toggles
    (c : context) (m : modifier) (use_in_list : bool) :
  let r := modifier_visibility_buttons DONT_SUPPORT_SHOW_IN_EDITMODE
             SUPPORT_USE_APPLY_ON_SPLINE SUPPORT_SHOW_ON_CAGE pcoll c m use_in_list in
  existsb (shows (name m) "show_render") r
  = negb (bool_decide (type m = "COLLISION")) /\
  existsb (shows (name m) "show_viewport") r
  = negb (bool_decide (type m = "COLLISION")) /\
  existsb (shows (name m) "show_in_editmode") r
  = negb (bool_decide (type m ∈ DONT_SUPPORT_SHOW_IN_EDITMODE)).
Proof.
  intros r. subst r.
  destruct (modifier_visibility_buttons_shape c m use_in_list)
    as (e & rest & -> & He & Hrest).
  destruct (show_in_editmode_cell m use_in_list e He) as (_ & _ & Hshows & Hedit).
  simpl. rewrite Hedit, !Hshows by done.
  destruct Hrest as [(_ & ->) | (_ & w & -> & Hw)].
  - eval_row m.
  - destruct Hw as [-> | [(_ & _ & _ & ctx & ->) | [(_ & _ & a & icon & ->)
                   | (_ & _ & _ & icon & ->)]]]; eval_row m.
Qed.

End ResolverMore.

(** ** More on remove all modifiers *)

Module RemoveAllMore.

Import OBJECT_OT_ml_remove_all_modifiers.

Lemma existsb_has_modifiers (obs : list object) :
  existsb has_modifiers obs = true <-> Exists (fun ob => modifiers ob <> []) obs.
Proof.
  rewrite existsb_exists, Exists_exists. unfold has_modifiers.
  split; intros (ob & Hin & H); exists ob;
    (split; [by apply list_elem_of_In|]); by destruct (modifiers ob).
Qed.

(** X15. What a run of remove-all comes to. It always returns. It returns
    FINISHED and reports "Removed all modifiers" iff some selected object
    had a modifier; otherwise it returns CANCELLED, with "No selection"
    iff nothing is selected and "No modifiers to remove" else. The
    selection afterwards is the same objects in the same order, each
    without modifiers and with its active index as it was. *)
Theorem execute_outcome (obs : list object) :
  exists obs' msg result,
    execute obs = Some (obs', [(INFO, msg)], result) /\
    (result = FINISHED <-> Exists (fun ob => modifiers ob <> []) obs) /\
    (msg = "Removed all modifiers" <-> result = FINISHED) /\
    (msg = "No selection" <-> obs = []) /\
    Forall2 (fun ob' ob =>
               modifiers ob' = [] /\ ob_name ob' = ob_name ob /\
               ob_type ob' = ob_type ob /\ parent ob' = parent ob /\
               ml_modifier_active_index ob' = ml_modifier_active_index ob)
      obs' obs.
Proof.
  exists (set_modifiers [] <$> obs).
  assert (Forall2 (fun ob' ob =>
               modifiers ob' = [] /\ ob_name ob' = ob_name ob /\
               ob_type ob' = ob_type ob /\ parent ob' = parent ob /\
               ml_modifier_active_index ob' = ml_modifier_active_index ob)
            (set_modifiers [] <$> obs) obs) as Hsame.
  { apply Forall2_fmap_l, Forall_Forall2_diag, Forall_true. done. }
  unfold execute. destruct obs as [|ob obs].
  - exists "No selection", CANCELLED. simpl. repeat split; try done.
    intros H. by apply Exists_nil in H.
  - rewrite bool_decide_eq_false_2 by done.
    rewrite RemoveAllFacts.remove_from_each_all. cbn [mbind option_bind].
    rewrite orb_false_l.
    destruct (existsb has_modifiers (ob :: obs)) eqn:Hany.
    + apply existsb_has_modifiers in Hany.
      exists "Removed all modifiers", FINISHED. simpl. repeat split; done.
    + apply not_true_iff_false in Hany. rewrite existsb_has_modifiers in Hany.
      exists "No modifiers to remove", CANCELLED. simpl. repeat split; done.
Qed.

End RemoveAllMore.

(** ** More on the panels *)

Section PanelsMore.

Variable get_gizmo_object_from_modifier : modifier -> option object.

(** X16. The gizmo settings panel raises IndexError exactly when the
    sequence is not empty and the active index is outside [-len, len);
    in every other case it draws. *)
Theorem gizmo_draw_raises_iff (c : context) :
  let ob := get_ml_active_object c in
  let len := Z.of_nat (length (modifiers ob)) in
  (OBJECT_PT_ml_gizmo_object_settings.draw get_gizmo_object_from_modifier c
   = Py.Raise Py.IndexError <->
   modifiers ob <> [] /\ ~ (- len <= ml_modifier_active_index ob < len)) /\
  ((exists l, OBJECT_PT_ml_gizmo_object_settings.draw get_gizmo_object_from_modifier c
              = Py.Ok l) <->
   modifiers ob = [] \/ - len <= ml_modifier_active_index ob < len).
Proof.
  intros ob len. unfold OBJECT_PT_ml_gizmo_object_settings.draw. fold ob.
  case_bool_decide as Hempty.
  { split; split; try done; try tauto. eauto. }
  destruct (decide (- len <= ml_modifier_active_index ob < len)) as [Hin|Hout].
  - destruct (index_inside _ _ Hin) as [m Hm]. rewrite Hm. simpl.
    destruct (get_gizmo_object_from_modifier m);
      (split; split; try done; try tauto; eauto).
  - rewrite (index_outside _ _ Hout). simpl.
    split; split; try done; try tauto. by intros [l Hl].
Qed.

(** X17. The extras popover reads the active modifier only on a host from
    2.92 on: it raises IndexError exactly when the host is 2.92 or later,
    the sequence is not empty and the active index is outside
    [-len, len); in every other case it draws, with [ui_units_x] 11. *)
Theorem extras_draw_raises_iff (c : context) :
  let ob := get_ml_active_object c in
  let len := Z.of_nat (length (modifiers ob)) in
  let stale := modifiers ob <> [] /\ ~ (- len <= ml_modifier_active_index ob < len) in
  (OBJECT_PT_ml_modifier_extras.draw c = Py.Raise Py.IndexError <->
   Qle_bool (292 # 100) (version_major_point_minor c) = true /\ stale) /\
  ((exists l, OBJECT_PT_ml_modifier_extras.draw c = Py.Ok (11, l)) <->
   ~ (Qle_bool (292 # 100) (version_major_point_minor c) = true /\ stale)).
Proof.
  intros ob len stale. subst stale.
  unfold OBJECT_PT_ml_modifier_extras.draw. fold ob.
  destruct (Qle_bool _ _); simpl.
  2:{ split; split; try (intros; intuition congruence). eauto. }
  case_bool_decide as Hempty; simpl.
  { split; split; try (intros; intuition congruence). eauto. }
  destruct (decide (- len <= ml_modifier_active_index ob < len)) as [Hin|Hout].
  - destruct (index_inside _ _ Hin) as [m Hm]. rewrite Hm. simpl.
    split; split; try (intros; intuition congruence). eauto.
  - rewrite (index_outside _ _ Hout). simpl.
    split; split; try (intros; intuition congruence).
    intros [l Hl]. congruence.
Qed.

(** X18. The range check of [modifiers_ui] is one-sided: provided the rest
    of the function draws, [modifiers_ui] raises IndexError exactly when
    the sequence is not empty and the active index is below [-len]. An
    index past the end gets the prompt instead. *)
Theorem modifiers_ui_raises_iff
    (modifiers_ui_body : context -> Py.result layout) (c : context) :
  let ob := get_ml_active_object c in
  let len := Z.of_nat (length (modifiers ob)) in
  (exists body, modifiers_ui_body c = Py.Ok body) ->
  (modifiers_ui modifiers_ui_body c = Py.Raise Py.IndexError <->
   modifiers ob <> [] /\ ml_modifier_active_index ob < - len).
Proof.
  intros ob len [body Hbody]. unfold modifiers_ui. fold ob. fold len.
  case_bool_decide as Hempty; simpl.
  { rewrite Hbody. simpl. split; [done | tauto]. }
  destruct (len - 1 <? ml_modifier_active_index ob) eqn:Hpast.
  { apply Z.ltb_lt in Hpast. split; [done | lia]. }
  apply Z.ltb_ge in Hpast.
  destruct (decide (- len <= ml_modifier_active_index ob)) as [Hin|Hout].
  - destruct (index_inside (modifiers ob) (ml_modifier_active_index ob)) as [m Hm];
      [fold len; lia|].
    rewrite Hm. simpl. rewrite Hbody. simpl. split; [done | lia].
  - rewrite index_outside by (fold len; lia). simpl. split; [|done].
    intros _. split; [done | lia].
Qed.

End PanelsMore.

(** ** The favourites grid *)

Section FavouritesFacts.

Variable prefs : preferences.

(** Favourites per row. *)
Local Abbreviation per_row :=
  (if bool_decide (favourites_per_row prefs = "3") then 3%nat else 2%nat).

(** [favourites_rows], one run of the loop body at a time. *)
Lemma favourites_rows_three (f g h : favourite) (favs : list favourite) :
  favourites_per_row prefs = "3" ->
  favourites_rows prefs (f :: g :: h :: favs)
  = rows ← favourites_rows prefs favs;
    Some ((if truthy (f.1.1) || truthy (g.1.1) || truthy (h.1.1)
           then [container Row (fresh true)
                   [favourite_cell prefs f; favourite_cell prefs g;
                    favourite_cell prefs h]]
           else []) ++ rows).
Proof. intros H. simpl. by rewrite (bool_decide_eq_true_2 _ H). Qed.

Lemma favourites_rows_two (f g : favourite) (favs : list favourite) :
  favourites_per_row prefs <> "3" ->
  favourites_rows prefs (f :: g :: favs)
  = rows ← favourites_rows prefs favs;
    Some ((if truthy (f.1.1) || truthy (g.1.1)
           then [container Row (fresh true)
                   [favourite_cell prefs f; favourite_cell prefs g]]
           else []) ++ rows).
Proof. intros H. simpl. by rewrite (bool_decide_eq_false_2 _ H). Qed.

Lemma favourites_rows_short_three (favs : list favourite) :
  favourites_per_row prefs = "3" ->
  (0 < length favs < 3)%nat -> favourites_rows prefs favs = None.
Proof.
  intros H Hlen. destruct favs as [|f [|g [|h favs]]]; simpl in *; try lia; try done.
  by rewrite (bool_decide_eq_true_2 _ H).
Qed.

Lemma favourites_rows_short_two (favs : list favourite) :
  (length favs = 1)%nat -> favourites_rows prefs favs = None.
Proof. intros Hlen. by destruct favs as [|f [|g favs]]. Qed.

(** Induction over the favourites as the loop takes them. *)
Lemma favourites_ind (P : list favourite -> Prop) :
  P [] ->
  (forall favs, (0 < length favs < per_row)%nat -> P favs) ->
  (forall group favs, length group = per_row -> P favs -> P (group ++ favs)) ->
  forall favs, P favs.
Proof.
  intros Hnil Hshort Hstep favs.
  remember (length favs) as n eqn:Hn. revert favs Hn.
  induction n as [n IH] using lt_wf_ind. intros favs Hn.
  destruct (decide (n = 0)%nat) as [->|Hpos].
  { destruct favs; [done | simpl in Hn; lia]. }
  destruct (decide (n < per_row)%nat) as [Hlt|Hge].
  { apply Hshort. lia. }
  rewrite <- (take_drop per_row favs). apply Hstep.
  - rewrite length_take. lia.
  - apply (IH (length (drop per_row favs))); [|done].
    rewrite length_drop. case_bool_decide; lia.
Qed.

Lemma favourite_cell_operator (f : favourite) :
  has_operator (favourite_cell prefs f) = truthy (f.1.1).
Proof. destruct f as [[n i] t]. simpl. by destruct (truthy n). Qed.

(** X19. Drawing the favourites returns iff their number is a multiple of
    the favourites per row (3 when the preference is '3', else 2);
    otherwise [next()] raises StopIteration in the loop body. *)
Theorem favourites_rows_returns_iff (favs : list favourite) :
  is_Some (favourites_grid prefs favs) <-> (length favs mod per_row = 0)%nat.
Proof.
  unfold favourites_grid.
  assert (is_Some (favourites_rows prefs favs) <-> (length favs mod per_row = 0)%nat)
    as Hrows.
  { induction favs as [|favs Hshort|group favs Hgroup IH] using favourites_ind.
    - split; [by case_bool_decide | by eauto].
    - rewrite Nat.mod_small by lia. split; [|lia].
      intros [rows Hrows]. revert Hshort Hrows. case_bool_decide as Hthree; intros.
      + by rewrite favourites_rows_short_three in Hrows.
      + by rewrite favourites_rows_short_two in Hrows by lia.
    - assert ((length (group ++ favs) mod per_row = length favs mod per_row)%nat)
        as ->.
      { rewrite length_app, Hgroup.
        rewrite <- (Nat.mul_1_l per_row) at 1.
        rewrite Nat.add_comm. apply Nat.Div0.mod_add. }
      rewrite <- IH. revert Hgroup. case_bool_decide as Hthree; intros Hgroup.
      + destruct group as [|f [|g [|h [|]]]]; try done. simpl app.
        rewrite favourites_rows_three by done.
        destruct (favourites_rows prefs favs); simpl; split;
          intros [? ?]; by eauto.
      + destruct group as [|f [|g [|]]]; try done. simpl app.
        rewrite favourites_rows_two by done.
        destruct (favourites_rows prefs favs); simpl; split;
          intros [? ?]; by eauto. }
  rewrite <- Hrows.
  destruct (favourites_rows prefs favs); simpl; split; intros [? ?]; by eauto.
Qed.

(** X20. When the favourites are drawn, every row of the grid holds exactly
    as many cells as there are favourites per row, and there are no more
    rows than groups of favourites. *)
Theorem favourites_rows_cells (favs : list favourite) (rows : layout) :
  favourites_rows prefs favs = Some rows ->
  Forall (fun w => exists cells, w = container Row (fresh true) cells /\
                                 length cells = per_row) rows /\
  (length rows * per_row <= length favs)%nat.
Proof.
  revert rows.
  induction favs as [|favs Hshort|group favs Hgroup IH] using favourites_ind;
    intros rows Hrows.
  - injection Hrows as <-. split; [constructor | simpl; lia].
  - revert Hshort Hrows. case_bool_decide as Hthree; intros.
    + by rewrite favourites_rows_short_three in Hrows.
    + by rewrite favourites_rows_short_two in Hrows by lia.
  - revert Hgroup IH. case_bool_decide as Hthree; intros Hgroup IH.
    + destruct group as [|f [|g [|h [|]]]]; try done. simpl app in *.
      rewrite favourites_rows_three in Hrows by done.
      destruct (favourites_rows prefs favs) as [rest|]; [|done].
      simpl in Hrows. injection Hrows as <-.
      destruct (IH rest eq_refl) as [Hall Hlen].
      destruct (_ || _); simpl; (split; [|lia]); [|done].
      constructor; [by eauto | done].
    + destruct group as [|f [|g [|]]]; try done. simpl app in *.
      rewrite favourites_rows_two in Hrows by done.
      destruct (favourites_rows prefs favs) as [rest|]; [|done].
      simpl in Hrows. injection Hrows as <-.
      destruct (IH rest eq_refl) as [Hall Hlen].
      destruct (_ || _); simpl; (split; [|lia]); [|done].
      constructor; [by eauto | done].
Qed.

(** X21. When the favourites are drawn, the add operators in the grid, read
    row by row, are the favourites that are set, each once and in their
    order; slots that are not set give blanks or no row at all. *)
Theorem favourites_rows_operators (favs : list favourite) (rows : layout) :
  favourites_rows prefs favs = Some rows ->
  filter (fun w => has_operator w = true) (concat (cells_of <$> rows))
  = favourite_cell prefs <$> filter (fun f => truthy (f.1.1) = true) favs.
Proof.
  assert (forall f : favourite,
             filter (fun w => has_operator w = true) [favourite_cell prefs f]
             = favourite_cell prefs <$> filter (fun f => truthy (f.1.1) = true) [f])
    as Hone.
  { intros f. rewrite !filter_cons, !filter_nil, favourite_cell_operator.
    by destruct (truthy (f.1.1)). }
  revert rows.
  induction favs as [|favs Hshort|group favs Hgroup IH] using favourites_ind;
    intros rows Hrows.
  - by injection Hrows as <-.
  - revert Hshort Hrows. case_bool_decide as Hthree; intros.
    + by rewrite favourites_rows_short_three in Hrows.
    + by rewrite favourites_rows_short_two in Hrows by lia.
  - revert Hgroup IH. case_bool_decide as Hthree; intros Hgroup IH.
    + destruct group as [|f [|g [|h [|]]]]; try done. simpl app in *.
      rewrite favourites_rows_three in Hrows by done.
      destruct (favourites_rows prefs favs) as [rest|]; [|done].
      simpl in Hrows. injection Hrows as <-.
      rewrite fmap_app, concat_app, filter_app, (IH rest eq_refl).
      change (f :: g :: h :: favs) with ([f] ++ [g] ++ [h] ++ favs).
      rewrite !filter_app, !fmap_app, <- !Hone.
      destruct (truthy (f.1.1)) eqn:Hf, (truthy (g.1.1)) eqn:Hg,
        (truthy (h.1.1)) eqn:Hh; simpl;
        rewrite ?filter_cons, ?filter_nil, ?favourite_cell_operator,
          ?Hf, ?Hg, ?Hh; done.
    + destruct group as [|f [|g [|]]]; try done. simpl app in *.
      rewrite favourites_rows_two in Hrows by done.
      destruct (favourites_rows prefs favs) as [rest|]; [|done].
      simpl in Hrows. injection Hrows as <-.
      rewrite fmap_app, concat_app, filter_app, (IH rest eq_refl).
      change (f :: g :: favs) with ([f] ++ [g] ++ favs).
      rewrite !filter_app, !fmap_app, <- !Hone.
      destruct (truthy (f.1.1)) eqn:Hf, (truthy (g.1.1)) eqn:Hg; simpl;
        rewrite ?filter_cons, ?filter_nil, ?favourite_cell_operator, ?Hf, ?Hg;
        done.
Qed.

End FavouritesFacts.

(** ** More theorems at sample scenes *)

Module AtSamplesMore.

Import Sample.
Import OBJECT_OT_ml_modifier_move_up.

Lemma call_accepted_witness :
  exists c',
    call refuses (fun _ _ => true) (scene (mesh [bevel; subsurf] 1) "VIEW_3D" 83) false
    = Py.Ok c'.
Proof.
  destruct (MoveUpMore.call_accepted refuses (fun _ _ => true)
              (scene (mesh [bevel; subsurf] 1) "VIEW_3D" 83) false)
    as (c' & _ & Hcall).
  - reflexivity.
  - exists c'. exact Hcall.
Defined.

Lemma execute_keeps_entries_witness :
  [mirror; bevel; subsurf] ≡ₚ [bevel; subsurf; mirror].
Proof.
  refine (proj1 (MoveUpMore.execute_keeps_entries refuses
                   (scene (mesh [bevel; subsurf; mirror] 2) "VIEW_3D" 83)
                   (scene (mesh [mirror; bevel; subsurf] 0) "VIEW_3D" 83)
                   true FINISHED _)).
  reflexivity.
Defined.

Lemma execute_at_top_witness :
  execute refuses (scene (mesh [bevel; subsurf] 0) "VIEW_3D" 91) true
  = Py.Ok (scene (mesh [bevel; subsurf] 0) "VIEW_3D" 91, FINISHED).
Proof.
  apply MoveUpMore.execute_at_top.
  - discriminate.
  - reflexivity.
  - right. right. reflexivity.
Defined.

Lemma execute_jump_to_top_pinned_witness :
  exists c',
    execute refuses pinned_scene true = Py.Ok (c', FINISHED) /\
    modifiers (get_ml_active_object c') = [bevel; subsurf; mirror] /\
    modifiers (context_object c') = [mirror; bevel].
Proof.
  destruct (MoveUpMore.execute_jump_to_top_pinned refuses pinned_scene
              (mesh [bevel; subsurf; mirror] 2) 2 mirror)
    as (c' & Hrun & _ & Hpinned & Hcontext).
  - reflexivity.
  - reflexivity.
  - reflexivity.
  - reflexivity.
  - exists c'. split; [exact Hrun|]. split; [exact Hpinned | exact Hcontext].
Defined.

Lemma single_steps_are_jump_to_top_witness :
  exists c',
    single_steps refuses 2 (scene (mesh [bevel; subsurf; mirror] 2) "VIEW_3D" 83) = Py.Ok c' /\
    execute refuses (scene (mesh [bevel; subsurf; mirror] 2) "VIEW_3D" 83) true
    = Py.Ok (c', FINISHED).
Proof.
  destruct (SingleSteps.single_steps_are_jump_to_top refuses
              (scene (mesh [bevel; subsurf; mirror] 2) "VIEW_3D" 83) 2 mirror)
    as (c' & Hsteps & Hjump & _).
  - apply AtSamples.names_unique. vm_compute. reflexivity.
  - reflexivity.
  - reflexivity.
  - lia.
  - repeat constructor.
  - reflexivity.
  - exists c'. split; [exact Hsteps | exact Hjump].
Defined.

(** Mirror last in the stack, with show_on_cage on: its own toggle, on
    and active. *)
Lemma show_on_cage_button_own_flag_witness :
  show_on_cage_button SUPPORT_SHOW_ON_CAGE pcoll (mesh [subsurf; mirror] 1) mirror false
  = (true,
     [container Row (fresh true)
        [prop "Mirror" "show_on_cage" "" (Some (pcoll "SHOW_ON_CAGE_ON")) true]]).
Proof.
  refine (show_on_cage_button_own_flag SUPPORT_SHOW_ON_CAGE pcoll
            (mesh [subsurf; mirror] 1) 1 mirror false _ _ _ _ _).
  - apply AtSamples.names_unique. vm_compute. reflexivity.
  - reflexivity.
  - apply AtSamples.in_table. vm_compute. reflexivity.
  - intros [|j] m' Hj Hm'; [|lia]. injection Hm' as <-.
    intros [_ Hnot]. apply Hnot. apply AtSamples.in_table. vm_compute. reflexivity.
  - intros [|[|j]] m' Hj Hm'; [lia | lia | discriminate Hm'].
Defined.

Lemma modifier_visibility_buttons_by_object_type_witness :
  ob_type (mesh [subsurf] 0) = "MESH" /\ type subsurf ∈ SUPPORT_SHOW_ON_CAGE.
Proof.
  refine (proj1 (modifier_visibility_buttons_by_object_type
                   DONT_SUPPORT_SHOW_IN_EDITMODE SUPPORT_USE_APPLY_ON_SPLINE
                   SUPPORT_SHOW_ON_CAGE pcoll
                   (scene (mesh [subsurf] 0) "VIEW_3D" 83) subsurf true) _).
  vm_compute. reflexivity.
Defined.

Lemma modifier_visibility_buttons_operator_witness :
  area_type (scene (mesh [cloth] 0) "PROPERTIES" 83) = "PROPERTIES".
Proof.
  refine (proj1 (proj2 (modifier_visibility_buttons_operator
                          DONT_SUPPORT_SHOW_IN_EDITMODE SUPPORT_USE_APPLY_ON_SPLINE
                          SUPPORT_SHOW_ON_CAGE pcoll
                          (scene (mesh [cloth] 0) "PROPERTIES" 83) cloth false _)) _).
  - vm_compute. reflexivity.
  - reflexivity.
Defined.

(** One modifier and active index -2: no prompt, IndexError. *)
Lemma modifiers_ui_raises_iff_witness :
  modifiers_ui (fun _ => Py.Ok []) (scene (mesh [subsurf] (-2)) "VIEW_3D" 83)
  = Py.Raise Py.IndexError.
Proof.
  refine (proj2 (modifiers_ui_raises_iff (fun _ => Py.Ok [])
                   (scene (mesh [subsurf] (-2)) "VIEW_3D" 83) _) _).
  - exists []. reflexivity.
  - split; [discriminate | simpl; lia].
Defined.

Lemma favourites_rows_cells_witness :
  exists rows,
    favourites_rows three_per_row favourites = Some rows /\
    Forall (fun w => exists cells, w = container Row (fresh true) cells /\
                                   length cells = 3%nat) rows.
Proof.
  eexists. split; [vm_compute; reflexivity|].
  exact (proj1 (favourites_rows_cells three_per_row favourites _ eq_refl)).
Defined.

Lemma favourites_rows_operators_witness :
  exists rows,
    favourites_rows three_per_row favourites = Some rows /\
    filter (fun w => has_operator w = true) (concat (cells_of <$> rows))
    = favourite_cell three_per_row
        <$> [("Array", "MOD_ARRAY", "ARRAY"); ("Bevel", "MOD_BEVEL", "BEVEL");
             ("Mirror", "MOD_MIRROR", "MIRROR")].
Proof.
  eexists. split; [vm_compute; reflexivity|].
  exact (favourites_rows_operators three_per_row favourites _ eq_refl).
Defined.

End AtSamplesMore.
